(** * Input preparation for the StructLMM interaction test

    A shallow embedding of the preparation pipeline of
    [gxg-structlmm-script.py] and of the two earlier analysis scripts
    [WorkingLMMscript.py] and [Method2.py], with the properties of the
    specification stated over it.

    Conventions of the embedding.
    - A one-dimensional numpy array is a list.  A two-dimensional array is
      kept column by column together with its row count ([ndarray2]), so
      that [shape[0]] is known even for an array without columns.
    - Genotype codes are integers ([Z]).
    - Real-valued arrays have two readings.  [NpReal], [Standardizer] and
      the runs of the scripts ([Gxg], [Method2], [WorkingBody]) take the
      arithmetic as exact, over [R], with the float64 results of a division
      by zero kept explicit ([npfloat]): which arrays reach the engine, in
      which order and of which sizes, and the algebra of standardizing and
      scaling are stated over this reading.  [Float64] is the Standardizer
      and the standardization of the response over IEEE 754 binary64
      values, every operation rounded: whatever depends on the test
      [stds == 0], on a nan or on an infinity is stated over [Float64].
    - [print] calls only write diagnostics to stdout and are left out;
      what is written to stderr before [sys.exit(1)] is kept as the
      payload of the exit. *)

From Stdlib Require Import String Ascii.
From Stdlib Require Import Reals Lra Lia ZArith Bool Arith List.
From Stdlib Require Floats Uint63.
Import ListNotations.

(** ** numpy operations on integer arrays *)

Module NpInt.

Local Open Scope Z_scope.

(** [a == v] : element-wise comparison with a scalar. *)
Definition eq_scalar (a : list Z) (v : Z) : list bool :=
  map (fun x => x =? v) a.

(** [np.sum] of a boolean array: the number of [True] entries. *)
Fixpoint sum_bool (m : list bool) : Z :=
  match m with
  | [] => 0
  | b :: m' => (if b then 1 else 0) + sum_bool m'
  end.

(** [np.zeros_like(a)]. *)
Definition zeros_like (a : list Z) : list Z := map (fun _ => 0) a.

(** [dst[mask] = v] for a boolean mask of the shape of [dst].  The
    scripts only build masks from the array that also gave [dst] its
    shape, so the lengths agree; numpy raises IndexError otherwise, and
    the model leaves the remaining entries of [dst] alone. *)
Fixpoint mask_assign (dst : list Z) (mask : list bool) (v : Z) : list Z :=
  match dst, mask with
  | d :: dst', b :: mask' => (if b then v else d) :: mask_assign dst' mask' v
  | _, _ => dst
  end.

End NpInt.

(** ** Allele Coder: [ensure_minor_allele_coding]
    (gxg-structlmm-script.py 18-33, WorkingLMMscript.py 84-104; the two
    copies differ only in the messages printed). *)

Module AlleleCoder.

Import NpInt.
Local Open Scope Z_scope.

Definition zeros (geno : list Z) : Z := sum_bool (eq_scalar geno 0).
Definition twos (geno : list Z) : Z := sum_bool (eq_scalar geno 2).

(** The array built in the [if] branch. *)
Definition flipped (geno : list Z) : list Z :=
  let f0 := zeros_like geno in
  let f1 := mask_assign f0 (eq_scalar geno 0) 2 in
  let f2 := mask_assign f1 (eq_scalar geno 1) 1 in
  mask_assign f2 (eq_scalar geno 2) 0.

Definition ensure_minor_allele_coding (genotype_vector : list Z) : list Z :=
  let geno := genotype_vector in
  if twos geno >? zeros geno then flipped geno else geno.

End AlleleCoder.

(** ** numpy operations on real arrays, in exact arithmetic *)

Module NpReal.

Local Open Scope R_scope.

(** A float64 value: a real number or one of the special values. *)
Inductive npfloat : Type :=
| Finite (r : R)
| PosInf
| NegInf
| NaN.

(** A two-dimensional array, column by column. *)
Record ndarray2 (A : Type) : Type := mk_ndarray2 {
  shape0 : nat;
  columns : list (list A)
}.
Arguments mk_ndarray2 {A} _ _.
Arguments shape0 {A} _.
Arguments columns {A} _.

Definition shape1 {A : Type} (a : ndarray2 A) : nat := length (columns a).

(** Float division [x / d] by a finite divisor [d] that is not a
    negative zero (the divisors of the scripts are square roots and
    the substituted 1.0): [0/0] is nan and [x/0] is an infinity of the
    sign of [x]. *)
Definition np_div (x : npfloat) (d : R) : npfloat :=
  match x with
  | Finite a =>
      if Req_dec_T d 0 then
        if Req_dec_T a 0 then NaN
        else if Rlt_dec 0 a then PosInf else NegInf
      else Finite (a / d)
  | PosInf => if Rlt_dec d 0 then NegInf else PosInf
  | NegInf => if Rlt_dec d 0 then PosInf else NegInf
  | NaN => NaN
  end.

Fixpoint np_sum (a : list R) : R :=
  match a with
  | [] => 0
  | x :: a' => x + np_sum a'
  end.

(** [a.mean()] and [a.std()] (population standard deviation,
    [sqrt(mean((a - a.mean())**2))]) of a one-dimensional array of
    finite values, without rounding; [Float64.np_mean] and
    [Float64.np_std] are the rounded ones.  On an empty array numpy
    returns nan for both; the scripts use them only entry by entry over
    that same array, so what the model returns there is never looked
    at. *)
Definition np_mean (a : list R) : R := np_sum a / INR (length a).

Definition np_std (a : list R) : R :=
  sqrt (np_mean (map (fun x => (x - np_mean a) * (x - np_mean a)) a)).

(** [np.sqrt(k)] of a non-negative integer. *)
Definition np_sqrt_nat (k : nat) : R := sqrt (INR k).

(** [a / d] for a two-dimensional array and a scalar. *)
Definition div_scalar (a : ndarray2 npfloat) (d : R) : ndarray2 npfloat :=
  mk_ndarray2 (shape0 a) (map (map (fun x => np_div x d)) (columns a)).

(** [np.ones((n, 1))]. *)
Definition ones_column (n : nat) : ndarray2 npfloat :=
  mk_ndarray2 n [repeat (Finite 1) n].

(** [np.concatenate([a, b], axis=1)]: ValueError ([None]) unless the
    row counts agree. *)
Definition concatenate_axis1 {A : Type} (a b : ndarray2 A)
  : option (ndarray2 A) :=
  if Nat.eqb (shape0 a) (shape0 b)
  then Some (mk_ndarray2 (shape0 a) (columns a ++ columns b))
  else None.

(** [df.iloc[:, 1:].to_numpy()]: all columns but the first. *)
Definition iloc_from_1 {A : Type} (a : ndarray2 A) : ndarray2 A :=
  mk_ndarray2 (shape0 a) (tl (columns a)).

(** An array of finite values seen as a float array. *)
Definition of_reals (a : ndarray2 R) : ndarray2 npfloat :=
  mk_ndarray2 (shape0 a) (map (map Finite) (columns a)).

End NpReal.

(** ** Standardizer: [standardize_columns]
    (gxg-structlmm-script.py 11-16, WorkingLMMscript.py 48-60), in exact
    arithmetic.  The test [stds == 0] is here the test that the exact
    deviation is zero; [Float64.guard_zero] is the test on the computed
    value. *)

Module Standardizer.

Import NpReal.
Local Open Scope R_scope.

(** [stds[stds == 0] = 1.0], for one column. *)
Definition guard_zero (s : R) : R := if Req_dec_T s 0 then 1 else s.

(** One column of [(data - means) / stds]. *)
Definition standardize_column (c : list R) : list npfloat :=
  let mean := np_mean c in
  let std := guard_zero (np_std c) in
  map (fun x => np_div (Finite (x - mean)) std) c.

Definition standardize_columns (data : ndarray2 R) : ndarray2 npfloat :=
  mk_ndarray2 (shape0 data) (map standardize_column (columns data)).

End Standardizer.

(** ** Python string operations used by the column resolver *)

Module PyStr.

(** [c.lower()] on one ASCII character.  [str.lower] also changes
    letters outside ASCII, but never into one of the letters of
    "phenotype", so the test of the resolver is not affected. *)
Definition lower_ascii (c : ascii) : ascii :=
  let n := nat_of_ascii c in
  if (Nat.leb 65 n && Nat.leb n 90)%bool then ascii_of_nat (n + 32) else c.

Fixpoint lower (s : string) : string :=
  match s with
  | EmptyString => EmptyString
  | String c s' => String (lower_ascii c) (lower s')
  end.

(** [needle in hay] for strings. *)
Fixpoint contains (needle hay : string) : bool :=
  (String.prefix needle hay
   || match hay with
      | EmptyString => false
      | String _ hay' => contains needle hay'
      end)%bool.

(** [x in names] for a list of column names. *)
Definition mem (x : string) (names : list string) : bool :=
  existsb (String.eqb x) names.

End PyStr.

(** ** How a run ends, and the external engine *)

Module Run.

Import NpReal.

(** What [main] prints to stderr before [sys.exit(1)]. *)
Inductive exit_message : Type :=
| CannotDeterminePhenotypeColumn
| PhenotypeColumnNotFound (name : string)
| SnvTooFewColumns
| InconsistentSizes (y_len E_rows M_rows g_len : nat)
| StructLMMError.

Inductive py_exception : Type :=
| ValueError
| IndexError
| EngineException.

Inductive outcome (A : Type) : Type :=
| Ok (a : A)
| SysExit1 (msg : exit_message)
| Uncaught (e : py_exception).
Arguments Ok {A} _.
Arguments SysExit1 {A} _.
Arguments Uncaught {A} _.

(** The assembled arrays of a run. *)
Record run_state : Type := mk_run_state {
  y : list npfloat;
  E : ndarray2 npfloat;
  M : ndarray2 npfloat;
  g : list Z
}.

(** The external engine [struct_lmm.StructLMM], a black box: whether
    the constructor and [fit] return or raise, and what
    [score_2dof_inter] returns ([None]: it raises). *)
Record StructLMM : Type := mk_StructLMM {
  construct_ok : list npfloat -> ndarray2 npfloat -> ndarray2 npfloat -> bool;
  fit_ok : list npfloat -> ndarray2 npfloat -> ndarray2 npfloat -> bool;
  score_2dof_inter :
    list npfloat -> ndarray2 npfloat -> ndarray2 npfloat -> list Z -> option R
}.

(** The calls made on the engine, in order, with their arguments. *)
Inductive engine_call : Type :=
| Construct (y : list npfloat) (M E : ndarray2 npfloat)
| Fit
| Score (g : list Z).

(** [lmm = StructLMM(y, M, E); lmm.fit(); lmm.score_2dof_inter(g)]:
    the calls made and the p-value, or [None] when one of them raises. *)
Definition call_engine (lmm : StructLMM) (st : run_state)
  : list engine_call * option R :=
  let c := Construct (y st) (M st) (E st) in
  if construct_ok lmm (y st) (M st) (E st) then
    if fit_ok lmm (y st) (M st) (E st) then
      ([c; Fit; Score (g st)],
       score_2dof_inter lmm (y st) (M st) (E st) (g st))
    else ([c; Fit], None)
  else ([c], None).

End Run.

(** ** [main] of gxg-structlmm-script.py, lines 87-229

    The tables are taken as read by pandas (lines 52-85).  The report of
    the result (lines 183-223) is left out: a successful run is
    represented by the p-value. *)

Module Gxg.

Import NpReal Standardizer AlleleCoder PyStr Run.

(** Lines 88-108: the phenotype column.  [arg] is
    [args.phenotype_column] ([None] when the option is not given; an
    empty string is falsy as well). *)
Definition phenotype_columns (columns : list string) : list string :=
  filter (fun col => contains "phenotype" (lower col)) columns.

Definition is_given (arg : option string) : option string :=
  match arg with
  | Some EmptyString => None
  | other => other
  end.

Definition determine_phenotype_column
    (arg : option string) (columns : list string) : outcome string :=
  match is_given arg with
  | Some name => Ok name
  | None =>
      match phenotype_columns columns with
      | first :: _ => Ok first
      | [] =>
          if Nat.ltb 1 (length columns)
          then Ok (nth 1 columns EmptyString)
          else SysExit1 CannotDeterminePhenotypeColumn
      end
  end.

Definition resolve_phenotype_column
    (arg : option string) (columns : list string) : outcome string :=
  match determine_phenotype_column arg columns with
  | Ok phenotype_column =>
      if mem phenotype_column columns
      then Ok phenotype_column
      else SysExit1 (PhenotypeColumnNotFound phenotype_column)
  | other => other
  end.

(** Lines 111-117: [y = (y - np.mean(y)) / np.std(y)], in exact
    arithmetic; [Float64.standardize_phenotype] is the rounded one. *)
Definition standardize_phenotype (y : list R) : list npfloat :=
  let orig_y_mean := np_mean y in
  let orig_y_std := np_std y in
  map (fun v => np_div (Finite (v - orig_y_mean)%R) orig_y_std) y.

(** Lines 135-141, [pcs] being [pcs_df.to_numpy()] after the choice of
    the PC columns. *)
Definition background_matrix (pcs : ndarray2 R) : ndarray2 npfloat :=
  let E := standardize_columns pcs in
  div_scalar E (np_sqrt_nat (shape1 E)).

(** Lines 145-153, [n] being [y.shape[0]] and [cov_df] the covariate
    table when [--covariates] is given. *)
Definition design_matrix (n : nat) (cov_df : option (ndarray2 npfloat))
  : option (ndarray2 npfloat) :=
  match cov_df with
  | Some df =>
      let cov_data := iloc_from_1 df in
      concatenate_axis1 (ones_column n) cov_data
  | None => Some (ones_column n)
  end.

(** Lines 167-229: the size check, then the engine inside [try]. *)
Definition sizes_consistent (st : run_state) : bool :=
  (Nat.eqb (length (y st)) (shape0 (E st))
   && Nat.eqb (shape0 (E st)) (shape0 (M st))
   && Nat.eqb (shape0 (M st)) (length (g st)))%bool.

Definition check_and_run (lmm : StructLMM) (st : run_state)
  : list engine_call * outcome R :=
  if negb (sizes_consistent st) then
    ([], SysExit1 (InconsistentSizes (length (y st)) (shape0 (E st))
                                     (shape0 (M st)) (length (g st))))
  else
    match call_engine lmm st with
    | (calls, Some pv) => (calls, Ok pv)
    | (calls, None) => (calls, SysExit1 StructLMMError)
    end.

(** Lines 110-229 together. *)
Definition main_from_arrays
    (lmm : StructLMM) (pheno : list R) (pcs : ndarray2 R)
    (cov_df : option (ndarray2 npfloat)) (snv_df : ndarray2 Z)
  : list engine_call * outcome R :=
  let y := standardize_phenotype pheno in
  let E := background_matrix pcs in
  match design_matrix (length y) cov_df with
  | None => ([], Uncaught ValueError)
  | Some M =>
      if Nat.ltb (shape1 snv_df) 2 then ([], SysExit1 SnvTooFewColumns)
      else
        let g := nth 1 (columns snv_df) [] in
        let g := ensure_minor_allele_coding g in
        check_and_run lmm (mk_run_state y E M g)
  end.

End Gxg.

(** ** The module body of Method2.py, lines 28-34 *)

Module Method2.

Import NpReal Run.

(** Lines 28-31: the arrays, as read.  [HAPS] is the table without its
    index column, [PHE_SUBSET] the column [PHE[SUBSET]]. *)
Definition assemble
    (HAPS : ndarray2 R) (PHE_SUBSET : list R) (SNV : ndarray2 Z)
  : outcome run_state :=
  let y := map Finite PHE_SUBSET in
  let E := of_reals (iloc_from_1 HAPS) in
  match concatenate_axis1 (ones_column (shape0 E)) E with
  | None => Uncaught ValueError
  | Some M =>
      match nth_error (columns SNV) 1 with
      | None => Uncaught IndexError
      | Some g => Ok (mk_run_state y E M g)
      end
  end.

(** Lines 32-34: the engine, outside any [try]. *)
Definition run (lmm : StructLMM) (st : run_state)
  : list engine_call * outcome R :=
  match call_engine lmm st with
  | (calls, Some pv) => (calls, Ok pv)
  | (calls, None) => (calls, Uncaught EngineException)
  end.

Definition module_body
    (lmm : StructLMM) (HAPS : ndarray2 R) (PHE_SUBSET : list R)
    (SNV : ndarray2 Z) : list engine_call * outcome R :=
  match assemble HAPS PHE_SUBSET SNV with
  | Ok st => run lmm st
  | SysExit1 msg => ([], SysExit1 msg)
  | Uncaught e => ([], Uncaught e)
  end.

End Method2.

(** ** The module body of WorkingLMMscript.py, lines 67-74 *)

Module WorkingLMM.

Import NpReal Standardizer.

(** Lines 67-70. *)
Definition background_matrix (HAPS : ndarray2 R) : ndarray2 npfloat :=
  let E := standardize_columns (iloc_from_1 HAPS) in
  div_scalar E (np_sqrt_nat (shape1 E)).

(** Line 74 (Method2.py line 30 is the same statement). *)
Definition fixed_effects (E : ndarray2 npfloat) : option (ndarray2 npfloat) :=
  concatenate_axis1 (ones_column (shape0 E)) E.

End WorkingLMM.

(** ** Notions of the specification, in its own words *)

Module Spec.

Import NpReal Run.

(** The number of entries of [geno] equal to [v]. *)
Definition occurrences (v : Z) (geno : list Z) : Z :=
  Z.of_nat (count_occ Z.eq_dec geno v).

(** What an entry [x] of the input has become in the flipped array. *)
Definition flipped_code (x : Z) : Z :=
  (if x =? 0 then 2 else if x =? 1 then 1 else 0)%Z.

(** A genotype vector in diploid dosage coding. *)
Definition diploid (geno : list Z) : Prop :=
  Forall (fun x => x = 0 \/ x = 1 \/ x = 2)%Z geno.

(** [name] contains "phenotype", whatever the case of its letters. *)
Definition names_phenotype (name : string) : Prop :=
  exists pre mid post : string,
    name = (pre ++ mid ++ post)%string /\ PyStr.lower mid = "phenotype"%string.





(** The four sample counts of an assembled run. *)
Definition sizes (st : run_state) : nat * nat * nat * nat :=
  (length (y st), shape0 (E st), shape0 (M st), length (g st)).

Definition some_pair_differs (st : run_state) : Prop :=
  let '(a, b, c, d) := sizes st in
  a <> b \/ a <> c \/ a <> d \/ b <> c \/ b <> d \/ c <> d.

Definition all_sizes_equal (st : run_state) : Prop :=
  let '(a, b, c, d) := sizes st in a = b /\ b = c /\ c = d.

(** A run checks the sizes first: on a mismatch it ends with the
    dimension-mismatch message carrying the four lengths, and the
    engine has not been called. *)
Definition checks_sizes_first
    (run : StructLMM -> run_state -> list engine_call * outcome R) : Prop :=
  forall lmm st,
    some_pair_differs st ->
    run lmm st =
    ([], SysExit1 (InconsistentSizes (length (y st)) (shape0 (E st))
                                     (shape0 (M st)) (length (g st)))).

End Spec.

(** ** Reading the PCs file: gxg-structlmm-script.py, lines 57-69 *)

Module PcsFile.

(** How [pd.read_csv] is called on the PCs file. *)
Inductive read_plan : Type :=
| CommentSecondRow  (* header=0, comment='#', index_col=1 *)
| HeaderFirstRow.   (* header=0, index_col=0; header=1 when that raises *)

(** Line 58, [[next(f) for _ in range(3) if f]], the file being the list
    of its lines: [next] raises StopIteration ([None]) when the lines run
    out before the third. *)
Definition first_lines (file : list string) : option (list string) :=
  if Nat.ltb (length file) 3 then None else Some (firstn 3 file).

(** Lines 57-69.  [None]: the StopIteration of line 58 is caught at line
    83, which prints the read error and exits with code 1. *)
Definition choose_read_plan (file : list string) : option read_plan :=
  match first_lines file with
  | None => None
  | Some lines =>
      if (Nat.leb 2 (length lines)
          && String.prefix "#" (nth 1 lines EmptyString))%bool
      then Some CommentSecondRow
      else Some HeaderFirstRow
  end.

End PcsFile.

(** ** Choosing the PC columns: gxg-structlmm-script.py, lines 125-135 *)

Module PcTable.

Import NpReal.

(** A column of a DataFrame: of a numeric dtype, or of dtype object. *)
Inductive series : Type :=
| Numeric (values : list R)
| Object (values : list string).

Definition is_numeric (s : series) : bool :=
  match s with
  | Numeric _ => true
  | Object _ => false
  end.

(** A DataFrame without its index: the row count and the labelled
    columns in order. *)
Record frame : Type := mk_frame {
  nrows : nat;
  cols : list (string * series)
}.

(** [df.columns]. *)
Definition labels (df : frame) : list string := map fst (cols df).

(** [df[names]] for a list of labels: for each label in turn, the
    columns that carry it. *)
Definition getitem (df : frame) (names : list string) : frame :=
  mk_frame (nrows df)
    (flat_map (fun name => filter (fun c => String.eqb (fst c) name) (cols df))
              names).

(** [df.select_dtypes(include=[np.number])]. *)
Definition select_numeric (df : frame) : frame :=
  mk_frame (nrows df) (filter (fun c => is_numeric (snd c)) (cols df)).

(** Lines 125-133. *)
Definition select_pc_columns (pcs_df : frame) : frame :=
  let pc_cols := filter (String.prefix "PC") (labels pcs_df) in
  let pc_cols :=
    match pc_cols with
    | [] => labels (select_numeric pcs_df)
    | _ :: _ => pc_cols
    end in
  if Nat.ltb (length pc_cols) (length (labels pcs_df))
  then getitem pcs_df pc_cols
  else pcs_df.

(** Line 135, [pcs_df.to_numpy()], as a matrix of reals: [None] when a
    column of dtype object makes the array an object array. *)
Fixpoint numeric_columns (cs : list (string * series)) : option (list (list R)) :=
  match cs with
  | [] => Some []
  | (_, Numeric v) :: cs' =>
      match numeric_columns cs' with
      | Some m => Some (v :: m)
      | None => None
      end
  | (_, Object _) :: _ => None
  end.

Definition to_numpy (df : frame) : option (ndarray2 R) :=
  match numeric_columns (cols df) with
  | Some m => Some (mk_ndarray2 (nrows df) m)
  | None => None
  end.

End PcTable.

(** ** The module body of WorkingLMMscript.py, lines 40-118 *)

Module WorkingBody.

Import NpReal AlleleCoder Run.

(** Lines 43-44: [y = y - np.mean(y); y = y / np.std(y)], in exact
    arithmetic; [Float64.centre_then_scale] is the rounded one. *)
Definition standardize_phenotype (y : list R) : list npfloat :=
  let y1 := map (fun v => v - np_mean y)%R y in
  map (fun v => np_div (Finite v) (np_std y1)) y1.

(** Lines 40-107: the arrays. *)
Definition assemble
    (HAPS : ndarray2 R) (PHE_SUBSET : list R) (SNV : ndarray2 Z)
  : outcome run_state :=
  let y := standardize_phenotype PHE_SUBSET in
  let E := WorkingLMM.background_matrix HAPS in
  match WorkingLMM.fixed_effects E with
  | None => Uncaught ValueError
  | Some M =>
      match nth_error (columns SNV) 1 with
      | None => Uncaught IndexError
      | Some g => Ok (mk_run_state y E M (ensure_minor_allele_coding g))
      end
  end.

(** Lines 116-118 are the statements of Method2.py, lines 32-34. *)
Definition module_body
    (lmm : StructLMM) (HAPS : ndarray2 R) (PHE_SUBSET : list R)
    (SNV : ndarray2 Z) : list engine_call * outcome R :=
  match assemble HAPS PHE_SUBSET SNV with
  | Ok st => Method2.run lmm st
  | SysExit1 msg => ([], SysExit1 msg)
  | Uncaught e => ([], Uncaught e)
  end.

End WorkingBody.

(** ** The Standardizer and the response in binary64

    [standardize_columns] and the standardization of the response, with
    every value an IEEE 754 binary64 value and every operation rounded as
    numpy rounds it.  Mean and standard deviation are computed as numpy
    computes them: the sum divided by the count, and the square root of
    the mean of the squared deviations from that computed mean.

    The order in which [np.sum] adds the entries depends on the memory
    layout and on the length of the array, so the reduction is a
    parameter, [np_sum].  [sum_in_order] adds the entries one after the
    other, which is what numpy does along axis 0 of a row-major matrix
    and on every array of fewer than eight entries.  The examples use it
    on columns of two entries or of one repeated value, where every
    order of addition gives the same sum. *)

Module Float64.

Import PrimFloat.

Section Reductions.

Variable np_sum : list float -> float.

(** The number of entries, converted to float64 for the division (an
    array has fewer than 2^63 entries). *)
Definition count (n : nat) : float := of_uint63 (Uint63.of_Z (Z.of_nat n)).

(** [a.mean()]. *)
Definition np_mean (a : list float) : float :=
  (np_sum a / count (length a))%float.

(** [a.std()]: [sqrt(mean((a - a.mean())**2))]. *)
Definition np_std (a : list float) : float :=
  sqrt (np_mean (map (fun x => ((x - np_mean a) * (x - np_mean a))%float) a)).

(** [stds[stds == 0] = 1.0], for one column.  [==] is the IEEE
    comparison: true of both zeros, false of nan. *)
Definition guard_zero (s : float) : float :=
  if (s =? 0)%float then 1%float else s.

(** One column of [(data - means) / stds]
    (gxg-structlmm-script.py 11-16, WorkingLMMscript.py 48-60). *)
Definition standardize_column (c : list float) : list float :=
  let mean := np_mean c in
  let std := guard_zero (np_std c) in
  map (fun x => ((x - mean) / std)%float) c.

Definition standardize_columns (data : NpReal.ndarray2 float)
  : NpReal.ndarray2 float :=
  NpReal.mk_ndarray2 (NpReal.shape0 data)
                     (map standardize_column (NpReal.columns data)).

(** gxg-structlmm-script.py, lines 111-117:
    [y = (y - np.mean(y)) / np.std(y)]. *)
Definition standardize_phenotype (y : list float) : list float :=
  let orig_y_mean := np_mean y in
  let orig_y_std := np_std y in
  map (fun v => ((v - orig_y_mean) / orig_y_std)%float) y.

(** WorkingLMMscript.py, lines 43-44:
    [y = y - np.mean(y); y = y / np.std(y)]. *)
Definition centre_then_scale (y : list float) : list float :=
  let y1 := map (fun v => (v - np_mean y)%float) y in
  map (fun v => (v / np_std y1)%float) y1.

End Reductions.

(** The entries added one after the other, starting from 0. *)
Definition sum_in_order (a : list float) : float :=
  fold_left PrimFloat.add a PrimFloat.zero.

End Float64.

(** ** Measures used in the statements *)

Module Measures.

Import NpReal.

(** The sum of the codes of a genotype vector: the number of copies of
    the counted allele. *)
Fixpoint dosage (geno : list Z) : Z :=
  match geno with
  | [] => 0%Z
  | x :: geno' => (x + dosage geno')%Z
  end.


End Measures.

(** ** An engine for the examples *)

(** An engine that accepts every input and reports the p-value 1. *)
Definition accepting_engine : Run.StructLMM :=
  Run.mk_StructLMM (fun _ _ _ => true) (fun _ _ _ => true)
                   (fun _ _ _ _ => Some 1%R).

(** * Properties *)

(** ** Allele Coder *)

Section AlleleCoderFacts.

Import NpInt AlleleCoder Spec.
Local Open Scope Z_scope.

Lemma flipped_map (geno : list Z) : flipped geno = map flipped_code geno.
Proof.
  unfold flipped, zeros_like, eq_scalar, flipped_code.
  induction geno as [|x geno IH]; simpl; [reflexivity|].
  f_equal; [|exact IH].
  destruct (x =? 0) eqn:E0, (x =? 1) eqn:E1, (x =? 2) eqn:E2;
    try reflexivity;
    repeat match goal with
           | H : (_ =? _) = true |- _ => apply Z.eqb_eq in H
           end; lia.
Qed.

Lemma sum_bool_occurrences (geno : list Z) (v : Z) :
  sum_bool (eq_scalar geno v) = occurrences v geno.
Proof.
  unfold eq_scalar, occurrences.
  induction geno as [|x geno IH]; cbn [map sum_bool count_occ]; [reflexivity|].
  rewrite IH.
  destruct (Z.eq_dec x v) as [->|Hne].
  - rewrite Z.eqb_refl. lia.
  - apply Z.eqb_neq in Hne. rewrite Hne. lia.
Qed.

Lemma flips_when_more_twos (geno : list Z) :
  occurrences 2 geno > occurrences 0 geno ->
  ensure_minor_allele_coding geno = flipped geno.
Proof.
  intros H. unfold ensure_minor_allele_coding, twos, zeros.
  rewrite !sum_bool_occurrences.
  destruct (Z.gtb_spec (occurrences 2 geno) (occurrences 0 geno)); [reflexivity|lia].
Qed.

Lemma keeps_when_not_more_twos (geno : list Z) :
  occurrences 2 geno <= occurrences 0 geno ->
  ensure_minor_allele_coding geno = geno.
Proof.
  intros H. unfold ensure_minor_allele_coding, twos, zeros.
  rewrite !sum_bool_occurrences.
  destruct (Z.gtb_spec (occurrences 2 geno) (occurrences 0 geno)); [lia|reflexivity].
Qed.

Lemma flipped_entry (geno : list Z) (i : nat) (x : Z) :
  nth_error geno i = Some x ->
  nth_error (flipped geno) i =
  Some (if x =? 0 then 2 else if x =? 1 then 1 else 0).
Proof.
  intros H. rewrite flipped_map. apply (map_nth_error flipped_code _ _ H).
Qed.

Lemma flipped_length (geno : list Z) : length (flipped geno) = length geno.
Proof. rewrite flipped_map. apply length_map. Qed.

(** After the flip the old 2s, and every entry that was none of 0, 1
    and 2, are 0s, and exactly the old 0s are 2s. *)
Lemma flipped_occurrences (geno : list Z) :
  occurrences 2 (flipped geno) = occurrences 0 geno /\
  occurrences 2 geno <= occurrences 0 (flipped geno).
Proof.
  rewrite flipped_map. unfold occurrences, flipped_code.
  induction geno as [|x geno [IH2 IH0]]; cbn [map count_occ]; [split; lia|].
  destruct (Z.eqb_spec x 0) as [->|H0].
  - cbn. split; lia.
  - destruct (Z.eqb_spec x 1) as [->|H1].
    + cbn. split; lia.
    + destruct (Z.eq_dec 0 2) as [?|_]; [lia|].
      destruct (Z.eq_dec 0 0) as [_|?]; [|lia].
      destruct (Z.eq_dec x 0) as [?|_]; [lia|].
      destruct (Z.eq_dec x 2); split; lia.
Qed.

End AlleleCoderFacts.

(** C2.  The Allele Coder counts the entries equal to 0 and those equal
    to 2.  When the 2s strictly outnumber the 0s it returns a vector of
    the same length in which every 0 has become 2, every 2 has become 0
    and every 1 is kept (so a vector in diploid coding is returned with
    its homozygote codes reversed, entry [x] becoming [2 - x]); when they
    do not, it returns its input unchanged. *)
Theorem allele_coder_flip_rule (geno : list Z) :
  AlleleCoder.zeros geno = Spec.occurrences 0 geno /\
  AlleleCoder.twos geno = Spec.occurrences 2 geno /\
  ((Spec.occurrences 2 geno > Spec.occurrences 0 geno)%Z ->
   let out := AlleleCoder.ensure_minor_allele_coding geno in
   length out = length geno /\
   (forall i : nat,
       (nth_error geno i = Some 0%Z -> nth_error out i = Some 2%Z) /\
       (nth_error geno i = Some 2%Z -> nth_error out i = Some 0%Z) /\
       (nth_error geno i = Some 1%Z -> nth_error out i = Some 1%Z)) /\
   (Spec.diploid geno -> out = map (fun x => 2 - x)%Z geno)) /\
  ((Spec.occurrences 2 geno <= Spec.occurrences 0 geno)%Z ->
   AlleleCoder.ensure_minor_allele_coding geno = geno).
Proof.
  split; [apply sum_bool_occurrences|].
  split; [apply sum_bool_occurrences|].
  split; [|apply keeps_when_not_more_twos].
  intros Hmore out. subst out. rewrite (flips_when_more_twos _ Hmore).
  split; [apply flipped_length|]. split.
  - intros i. repeat split; intros Hi;
      rewrite (flipped_entry _ _ _ Hi); reflexivity.
  - intros Hd. rewrite flipped_map. apply map_ext_in.
    intros x Hx. unfold Spec.diploid in Hd. rewrite Forall_forall in Hd.
    destruct (Hd x Hx) as [->|[->| ->]]; reflexivity.
Qed.

Lemma allele_coder_flip_rule_witness :
  let geno := [0; 0; 0; 1; 2; 2; 2; 2; 2]%Z in
  AlleleCoder.ensure_minor_allele_coding geno = [2; 2; 2; 1; 0; 0; 0; 0; 0]%Z /\
  AlleleCoder.ensure_minor_allele_coding [0; 0; 0; 1; 1; 2]%Z = [0; 0; 0; 1; 1; 2]%Z.
Proof.
  cbv zeta. split.
  - refine (eq_trans
              (proj2 (proj2 (proj1 (proj2 (proj2
                 (allele_coder_flip_rule [0; 0; 0; 1; 2; 2; 2; 2; 2]%Z))) _)) _) _).
    + vm_compute. reflexivity.
    + unfold Spec.diploid. repeat constructor; lia.
    + reflexivity.
  - apply (proj2 (proj2 (proj2 (allele_coder_flip_rule [0; 0; 0; 1; 1; 2]%Z)))).
    vm_compute. discriminate.
Defined.

(** C8.  When the flip triggers (the 2s outnumber the 0s), the flipped
    vector has strictly more 0s than 2s, and a second pass of the Allele
    Coder returns it unchanged. *)
Theorem allele_coder_stable_after_flip (geno : list Z) :
  (Spec.occurrences 2 geno > Spec.occurrences 0 geno)%Z ->
  let out := AlleleCoder.ensure_minor_allele_coding geno in
  (Spec.occurrences 0 out > Spec.occurrences 2 out)%Z /\
  AlleleCoder.ensure_minor_allele_coding out = out.
Proof.
  intros Hmore out. subst out. rewrite (flips_when_more_twos _ Hmore).
  destruct (flipped_occurrences geno) as [H2 H0].
  split; [lia|]. apply keeps_when_not_more_twos. lia.
Qed.

Lemma allele_coder_stable_after_flip_witness :
  let out := AlleleCoder.ensure_minor_allele_coding [0; 0; 0; 1; 2; 2; 2; 2; 2]%Z in
  (Spec.occurrences 0 out > Spec.occurrences 2 out)%Z /\
  AlleleCoder.ensure_minor_allele_coding out = out.
Proof.
  apply (allele_coder_stable_after_flip [0; 0; 0; 1; 2; 2; 2; 2; 2]%Z).
  vm_compute. reflexivity.
Defined.

(** C10.  When the flip triggers, the output has the length of the
    input, and every entry of the input that is none of 0, 1 and 2 (a
    missing-value code such as -1, a dosage such as 3) is 0 in the output:
    the output starts as an all-zeros vector and is assigned only where
    the input holds 0, 1 or 2. *)
Theorem allele_coder_flip_zeroes_other_codes (geno : list Z) :
  (Spec.occurrences 2 geno > Spec.occurrences 0 geno)%Z ->
  let out := AlleleCoder.ensure_minor_allele_coding geno in
  length out = length geno /\
  forall (i : nat) (x : Z),
    nth_error geno i = Some x ->
    x <> 0%Z -> x <> 1%Z -> x <> 2%Z ->
    nth_error out i = Some 0%Z.
Proof.
  intros Hmore out. subst out. rewrite (flips_when_more_twos _ Hmore).
  split; [apply flipped_length|].
  intros i x Hi H0 H1 H2. rewrite (flipped_entry _ _ _ Hi).
  apply Z.eqb_neq in H0, H1. rewrite H0, H1. reflexivity.
Qed.

Lemma allele_coder_flip_zeroes_other_codes_witness :
  AlleleCoder.ensure_minor_allele_coding [2; -1; 2; 3; 0; 1]%Z = [0; 0; 0; 0; 2; 1]%Z /\
  nth_error (AlleleCoder.ensure_minor_allele_coding [2; -1; 2; 3; 0; 1]%Z) 1 = Some 0%Z.
Proof.
  split; [reflexivity|].
  refine (proj2 (allele_coder_flip_zeroes_other_codes [2; -1; 2; 3; 0; 1]%Z _)
                1%nat (-1)%Z eq_refl _ _ _).
  - vm_compute. reflexivity.
  - discriminate.
  - discriminate.
  - discriminate.
Defined.

(** ** Column Resolver *)

Section ColumnResolverFacts.

Import PyStr Run Gxg Spec.
Local Open Scope string_scope.

Lemma prefix_app (p s : string) :
  String.prefix p s = true <-> exists post, s = p ++ post.
Proof.
  revert s. induction p as [|a p IH]; intros s.
  - split; [intros _; exists s; reflexivity | intros _; destruct s; reflexivity].
  - destruct s as [|b s]; cbn.
    + split; [discriminate | intros [post H]; discriminate].
    + destruct (Ascii.ascii_dec a b) as [->|Hab].
      * rewrite IH. split; intros [post H]; exists post.
        -- now rewrite H.
        -- now injection H.
      * split; [discriminate | intros [post H]; injection H; congruence].
Qed.

Lemma contains_app (needle hay : string) :
  contains needle hay = true <-> exists pre post, hay = pre ++ needle ++ post.
Proof.
  induction hay as [|b hay IH]; cbn [contains]; rewrite orb_true_iff, prefix_app.
  - split.
    + intros [[post H]|H]; [exists "", post; exact H | discriminate].
    + intros [pre [post H]]. left.
      destruct pre; [exists post; exact H | discriminate].
  - rewrite IH. split.
    + intros [[post H]|[pre [post H]]].
      * exists "", post. exact H.
      * exists (String b pre), post. cbn. now rewrite H.
    + intros [pre [post H]]. destruct pre as [|c pre].
      * left. exists post. exact H.
      * right. exists pre, post. cbn in H. now injection H.
Qed.

Lemma lower_app (a b : string) : lower (a ++ b) = lower a ++ lower b.
Proof. induction a as [|c a IH]; cbn; [reflexivity | now rewrite IH]. Qed.

Lemma lower_app_inv (s a b : string) :
  lower s = a ++ b ->
  exists s1 s2, s = s1 ++ s2 /\ lower s1 = a /\ lower s2 = b.
Proof.
  revert s. induction a as [|c a IH]; intros s H.
  - exists "", s. repeat split. exact H.
  - destruct s as [|d s]; [discriminate|].
    cbn in H. injection H as Hc Hs.
    destruct (IH s Hs) as [s1 [s2 [-> [H1 H2]]]].
    exists (String d s1), s2. cbn. rewrite Hc, H1. repeat split. exact H2.
Qed.

(** The test of line 92 holds exactly for the names that contain
    "phenotype" up to the case of the letters. *)
Lemma names_phenotype_test (col : string) :
  contains "phenotype" (lower col) = true <-> names_phenotype col.
Proof.
  rewrite contains_app. unfold names_phenotype. split.
  - intros [pre [post H]].
    destruct (lower_app_inv _ _ _ H) as [s1 [s23 [-> [H1 H23]]]].
    destruct (lower_app_inv _ _ _ H23) as [s2 [s3 [-> [H2 H3]]]].
    exists s1, s2, s3. split; [reflexivity | exact H2].
  - intros [pre [mid [post [-> H]]]].
    exists (lower pre), (lower post). now rewrite !lower_app, H.
Qed.

Lemma mem_In (x : string) (names : list string) :
  In x names -> mem x names = true.
Proof.
  intros H. unfold mem. apply existsb_exists. exists x.
  split; [exact H | apply String.eqb_refl].
Qed.

Lemma phenotype_columns_none (columns : list string) :
  Forall (fun c => ~ names_phenotype c) columns ->
  phenotype_columns columns = [].
Proof.
  unfold phenotype_columns.
  induction 1 as [|c columns Hc _ IH]; cbn; [reflexivity|].
  destruct (contains "phenotype" (lower c)) eqn:Ht; [|exact IH].
  apply names_phenotype_test in Ht. contradiction.
Qed.

Lemma phenotype_columns_first (pre post : list string) (c : string) :
  Forall (fun c => ~ names_phenotype c) pre ->
  names_phenotype c ->
  exists rest, phenotype_columns (pre ++ c :: post) = c :: rest.
Proof.
  intros Hpre Hc. unfold phenotype_columns. rewrite filter_app.
  fold (phenotype_columns pre). rewrite (phenotype_columns_none _ Hpre).
  cbn. apply names_phenotype_test in Hc. rewrite Hc. eauto.
Qed.

End ColumnResolverFacts.

(** C6.  With no explicit column override, the Column Resolver selects
    the first column, in table order, whose name contains "phenotype"
    case-insensitively; when no name matches and the table has more than
    one column it selects the second column; when no name matches and the
    table has at most one column it fails with the column-resolution
    error. *)
Theorem column_resolver_fallback_order (columns : list string) :
  (forall (pre post : list string) (c : string),
      columns = pre ++ c :: post ->
      Forall (fun x => ~ Spec.names_phenotype x) pre ->
      Spec.names_phenotype c ->
      Gxg.resolve_phenotype_column None columns = Run.Ok c) /\
  (Forall (fun x => ~ Spec.names_phenotype x) columns ->
   (forall (c0 c1 : string) (rest : list string),
       columns = c0 :: c1 :: rest ->
       Gxg.resolve_phenotype_column None columns = Run.Ok c1) /\
   (length columns <= 1 ->
    Gxg.resolve_phenotype_column None columns =
    Run.SysExit1 Run.CannotDeterminePhenotypeColumn)).
Proof.
  split.
  - intros pre post c -> Hpre Hc.
    unfold Gxg.resolve_phenotype_column, Gxg.determine_phenotype_column. cbn.
    destruct (phenotype_columns_first pre post c Hpre Hc) as [rest ->].
    rewrite mem_In; [reflexivity|]. apply in_elt.
  - intros Hnone.
    unfold Gxg.resolve_phenotype_column, Gxg.determine_phenotype_column. cbn.
    rewrite (phenotype_columns_none _ Hnone). split.
    + intros c0 c1 rest ->. cbn.
      rewrite String.eqb_refl, orb_true_r. reflexivity.
    + intros Hlen. destruct columns as [|c0 [|c1 rest]]; cbn in *; [reflexivity..|lia].
Qed.

Lemma column_resolver_fallback_order_witness :
  Gxg.resolve_phenotype_column None ["id"; "Phenotype(binary)"]%string
  = Run.Ok "Phenotype(binary)"%string /\
  Gxg.resolve_phenotype_column None ["id"; "value"]%string
  = Run.Ok "value"%string /\
  Gxg.resolve_phenotype_column None ["value"]%string
  = Run.SysExit1 Run.CannotDeterminePhenotypeColumn.
Proof.
  assert (Hno : forall s, PyStr.contains "phenotype" (PyStr.lower s) = false ->
                          ~ Spec.names_phenotype s).
  { intros s Hs Hn. apply names_phenotype_test in Hn. congruence. }
  split; [|split].
  - apply (proj1 (column_resolver_fallback_order ["id"; "Phenotype(binary)"]%string)
             ["id"%string] [] "Phenotype(binary)"%string eq_refl).
    + repeat constructor. apply Hno. reflexivity.
    + apply names_phenotype_test. reflexivity.
  - apply (proj1 (proj2 (column_resolver_fallback_order ["id"; "value"]%string)
                    ltac:(repeat constructor; apply Hno; reflexivity))
             "id"%string "value"%string [] eq_refl).
  - apply (proj2 (proj2 (column_resolver_fallback_order ["value"]%string)
                    ltac:(repeat constructor; apply Hno; reflexivity))).
    cbn. lia.
Defined.

(** ** Consistency Validator *)

Section ValidatorFacts.

Import NpReal Run Gxg Spec.

Lemma sizes_consistent_iff (st : run_state) :
  sizes_consistent st = true <-> all_sizes_equal st.
Proof.
  unfold sizes_consistent, all_sizes_equal, sizes.
  rewrite !andb_true_iff, !Nat.eqb_eq. tauto.
Qed.

Lemma some_pair_differs_iff (st : run_state) :
  some_pair_differs st <-> ~ all_sizes_equal st.
Proof. unfold some_pair_differs, all_sizes_equal, sizes. lia. Qed.

Lemma call_engine_starts_with_construct (lmm : StructLMM) (st : run_state) :
  exists rest, fst (call_engine lmm st) = Construct (y st) (M st) (E st) :: rest.
Proof.
  unfold call_engine.
  destruct (construct_ok lmm _ _ _); [destruct (fit_ok lmm _ _ _)|]; cbn; eauto.
Qed.

End ValidatorFacts.

(** C1, as amended.  In [main] of gxg-structlmm-script.py, for every
    assembled run state, the four sizes [len(y)], [E.shape[0]],
    [M.shape[0]] and [len(g)] are compared before the engine is
    constructed: when any two of them differ the run ends with the
    inconsistent-sizes message carrying the four observed sizes and no
    call is made on the engine; the engine is called only when all four
    are equal, and then it is constructed with [y], [M] and [E].  A run
    of [main] that calls the engine at all has passed this check. *)
Theorem gxg_checks_sizes_before_engine :
  Spec.checks_sizes_first Gxg.check_and_run /\
  (forall (lmm : Run.StructLMM) (st : Run.run_state),
      fst (Gxg.check_and_run lmm st) <> [] -> Spec.all_sizes_equal st) /\
  (forall (lmm : Run.StructLMM) (st : Run.run_state),
      Spec.all_sizes_equal st ->
      exists rest,
        fst (Gxg.check_and_run lmm st) =
        Run.Construct (Run.y st) (Run.M st) (Run.E st) :: rest) /\
  (forall lmm pheno pcs cov_df snv_df,
      fst (Gxg.main_from_arrays lmm pheno pcs cov_df snv_df) <> [] ->
      exists st,
        Spec.all_sizes_equal st /\
        Gxg.main_from_arrays lmm pheno pcs cov_df snv_df
        = Gxg.check_and_run lmm st).
Proof.
  assert (Hcalled : forall lmm st,
             fst (Gxg.check_and_run lmm st) <> [] -> Spec.all_sizes_equal st).
  { intros lmm st Hcalls. apply sizes_consistent_iff.
    unfold Gxg.check_and_run in Hcalls.
    destruct (Gxg.sizes_consistent st); [reflexivity|].
    cbn in Hcalls. congruence. }
  split; [|split; [exact Hcalled|split]].
  - intros lmm st Hd. apply some_pair_differs_iff in Hd.
    unfold Gxg.check_and_run.
    destruct (Gxg.sizes_consistent st) eqn:Hc; [|reflexivity].
    apply sizes_consistent_iff in Hc. contradiction.
  - intros lmm st He. apply sizes_consistent_iff in He.
    unfold Gxg.check_and_run. rewrite He. cbn [negb].
    destruct (call_engine_starts_with_construct lmm st) as [rest Hr].
    exists rest. rewrite <- Hr.
    destruct (Run.call_engine lmm st) as [calls [pv|]]; reflexivity.
  - intros lmm pheno pcs cov_df snv_df. unfold Gxg.main_from_arrays.
    destruct (Gxg.design_matrix _ cov_df) as [M1|]; [|cbn; congruence].
    destruct (Nat.ltb (NpReal.shape1 snv_df) 2); [cbn; congruence|].
    intros Hcalls. eexists. split; [exact (Hcalled _ _ Hcalls) | reflexivity].
Qed.

Lemma gxg_checks_sizes_before_engine_witness :
  let st := Run.mk_run_state
              (repeat (NpReal.Finite 0) 100)
              (NpReal.mk_ndarray2 100 [repeat (NpReal.Finite 0) 100])
              (NpReal.mk_ndarray2 99 [repeat (NpReal.Finite 1) 99])
              (repeat 0%Z 100) in
  Gxg.check_and_run accepting_engine st =
  ([], Run.SysExit1 (Run.InconsistentSizes 100 100 99 100)).
Proof.
  intros st.
  refine (eq_trans (proj1 gxg_checks_sizes_before_engine accepting_engine st _) _).
  - unfold Spec.some_pair_differs, Spec.sizes, st. cbn [Run.y Run.E Run.M Run.g NpReal.shape0].
    rewrite !repeat_length. right. left. discriminate.
  - unfold st. cbn [Run.y Run.E Run.M Run.g NpReal.shape0].
    rewrite !repeat_length. reflexivity.
Defined.

(** C1, as stated, fails on Method2.py: its module body builds the four
    arrays and calls the engine without comparing their sizes.  With three
    phenotype values, three rows of PCs and two genotypes the engine is
    constructed, fitted and scored. *)
Lemma method2_calls_engine_on_mismatch :
  let HAPS := NpReal.mk_ndarray2 3 [[0; 0; 0]; [1; 2; 4]]%R in
  let PHE_SUBSET := [1; 0; 1]%R in
  let SNV := NpReal.mk_ndarray2 2 [[7; 8]; [0; 1]]%Z in
  (exists st,
      Method2.assemble HAPS PHE_SUBSET SNV = Run.Ok st /\
      Spec.sizes st = (3, 3, 3, 2) /\
      Spec.some_pair_differs st /\
      Method2.module_body accepting_engine HAPS PHE_SUBSET SNV =
      ([Run.Construct (Run.y st) (Run.M st) (Run.E st); Run.Fit; Run.Score [0; 1]%Z],
       Run.Ok 1%R)) /\
  ~ Spec.checks_sizes_first Method2.run.
Proof.
  intros HAPS PHE_SUBSET SNV.
  assert (Hd : forall st, Spec.sizes st = (3, 3, 3, 2) -> Spec.some_pair_differs st).
  { intros st H. unfold Spec.some_pair_differs. rewrite H. lia. }
  split.
  - eexists. split; [reflexivity|]. split; [reflexivity|].
    split; [apply Hd; reflexivity | reflexivity].
  - intros Hall.
    pose (st := Run.mk_run_state [NpReal.NaN; NpReal.NaN; NpReal.NaN]
                  (NpReal.mk_ndarray2 3 []) (NpReal.mk_ndarray2 3 []) [0; 1]%Z).
    specialize (Hall accepting_engine st (Hd st eq_refl)).
    discriminate Hall.
Qed.

(** ** Design Assembler *)

(** C7.  For every sample count [N] the fixed-effect matrix starts with
    an all-ones column of length [N].  Without a covariate file it is
    exactly the N x 1 ones column; with one (of [N] rows) it is the ones
    column followed by the covariate columns, the first column of the
    covariate table being dropped as identifier and the others taken as
    they are.  (The statement of WorkingLMMscript.py line 74 prepends the
    ones column in the same way to the matrix it is given.) *)
Theorem design_matrix_intercept_then_covariates (N : nat) :
  Gxg.design_matrix N None
  = Some (NpReal.mk_ndarray2 N [repeat (NpReal.Finite 1) N]) /\
  (forall cov_df : NpReal.ndarray2 NpReal.npfloat,
      NpReal.shape0 cov_df = N ->
      Gxg.design_matrix N (Some cov_df)
      = Some (NpReal.mk_ndarray2 N
                (repeat (NpReal.Finite 1) N :: tl (NpReal.columns cov_df)))) /\
  (forall (cov_df : option (NpReal.ndarray2 NpReal.npfloat))
          (M : NpReal.ndarray2 NpReal.npfloat),
      Gxg.design_matrix N cov_df = Some M ->
      NpReal.shape0 M = N /\
      exists ones rest,
        NpReal.columns M = ones :: rest /\
        length ones = N /\
        Forall (fun x => x = NpReal.Finite 1) ones) /\
  (forall E : NpReal.ndarray2 NpReal.npfloat,
      NpReal.shape0 E = N ->
      WorkingLMM.fixed_effects E
      = Some (NpReal.mk_ndarray2 N
                (repeat (NpReal.Finite 1) N :: NpReal.columns E))).
Proof.
  assert (Hones : length (repeat (NpReal.Finite 1) N) = N /\
                  Forall (fun x => x = NpReal.Finite 1) (repeat (NpReal.Finite 1) N)).
  { split; [apply repeat_length|].
    apply Forall_forall. intros x Hx. apply (repeat_spec _ _ _ Hx). }
  split; [reflexivity|]. split; [|split].
  - intros cov_df Hrows.
    unfold Gxg.design_matrix, NpReal.concatenate_axis1, NpReal.iloc_from_1. cbn.
    rewrite Hrows, Nat.eqb_refl. reflexivity.
  - intros cov_df M HM. destruct cov_df as [df|].
    + unfold Gxg.design_matrix, NpReal.concatenate_axis1, NpReal.iloc_from_1 in HM.
      cbn in HM. destruct (Nat.eqb N (NpReal.shape0 df)); [|discriminate].
      injection HM as <-. cbn. split; [reflexivity|]. eauto.
    + injection HM as <-. cbn. split; [reflexivity|]. eauto.
  - intros E Hrows. unfold WorkingLMM.fixed_effects, NpReal.concatenate_axis1. cbn.
    rewrite Hrows, Nat.eqb_refl. reflexivity.
Qed.

Lemma design_matrix_intercept_then_covariates_witness :
  Gxg.design_matrix 2
    (Some (NpReal.mk_ndarray2 2
             [[NpReal.Finite 11; NpReal.Finite 12];
              [NpReal.Finite 30; NpReal.Finite 40]]%R))
  = Some (NpReal.mk_ndarray2 2
            [[NpReal.Finite 1; NpReal.Finite 1];
             [NpReal.Finite 30; NpReal.Finite 40]]%R).
Proof.
  exact (proj1 (proj2 (design_matrix_intercept_then_covariates 2))
           (NpReal.mk_ndarray2 2
              [[NpReal.Finite 11; NpReal.Finite 12];
               [NpReal.Finite 30; NpReal.Finite 40]]%R)
           eq_refl).
Defined.

(** ** Standardizer *)

Section StandardizerFacts.

Import NpReal Standardizer Spec.
Local Open Scope R_scope.















End StandardizerFacts.

(** ** Binary64 arithmetic

    Facts of IEEE 754 arithmetic that the statements about the
    Standardizer rest on, from the specification of the primitive floats:
    dividing by 1 and subtracting 0 change nothing, a finite value minus
    itself is 0, and a quotient by a zero is never finite. *)

Section FloatFacts.

Import PrimFloat SpecFloat FloatOps FloatAxioms.
Local Open Scope Z_scope.

Ltac to_binint :=
  change IntDef.Z.sub with Z.sub in *; change IntDef.Z.add with Z.add in *;
  change IntDef.Z.min with Z.min in *; change IntDef.Z.max with Z.max in *;
  change IntDef.Z.leb with Z.leb in *; change IntDef.Z.eqb with Z.eqb in *;
  change IntDef.Z.shiftl with Z.shiftl in *;
  change IntDef.Z.div_eucl with Z.div_eucl in *.

Lemma Prim2SF_one : Prim2SF 1%float = S754_finite false 4503599627370496 (-52).
Proof. reflexivity. Qed.

Lemma Prim2SF_zero : Prim2SF 0%float = S754_zero false.
Proof. reflexivity. Qed.

Lemma div_eucl_mul (a b : Z) : 0 < b -> Z.div_eucl (a * b) b = (a, 0).
Proof.
  intros Hb.
  assert (H : Z.div_eucl (a * b) b = ((a * b) / b, (a * b) mod b)).
  { unfold Z.div, Z.modulo. destruct (Z.div_eucl (a * b) b). reflexivity. }
  rewrite H, Z.div_mul, Z.mod_mul by lia. reflexivity.
Qed.

Lemma bounded_inv (m : positive) (e : Z) :
  bounded prec emax m e = true ->
  Z.max (Z.pos (digits2_pos m) + e - 53) (-1074) = e /\ e <= 971.
Proof.
  unfold bounded, canonical_mantissa, fexp, emin, prec, emax.
  intros Hb. apply andb_true_iff in Hb. destruct Hb as [Hc He].
  apply Z.eqb_eq in Hc. apply Z.leb_le in He. split; [exact Hc | exact He].
Qed.

Lemma binary_round_aux_exact (s : bool) (m : positive) (e : Z) :
  bounded prec emax m e = true ->
  binary_round_aux prec emax s (Z.pos m) e loc_Exact = S754_finite s m e.
Proof.
  intros Hb. destruct (bounded_inv m e Hb) as [Hc He].
  unfold binary_round_aux, shr_fexp, fexp, emin, prec, emax.
  cbn [Zdigits2 shr_record_of_loc]. to_binint.
  change (3 - 1024 - 53) with (-1074).
  replace (Z.max (Z.pos (digits2_pos m) + e - 53) (-1074) - e) with 0 by lia.
  cbn [shr shr_m loc_of_shr_record round_nearest_even Zdigits2 shr_record_of_loc].
  replace (Z.max (Z.pos (digits2_pos m) + e - 53) (-1074) - e) with 0 by lia.
  cbn [shr shr_m].
  change (1024 - 53) with 971.
  apply Z.leb_le in He. now rewrite He.
Qed.

Lemma SFdiv_one (s : bool) (m : positive) (e : Z) :
  bounded prec emax m e = true ->
  SFdiv prec emax (S754_finite s m e) (S754_finite false 4503599627370496 (-52))
  = S754_finite s m e.
Proof.
  intros Hb. destruct (bounded_inv m e Hb) as [Hc He].
  set (d := Z.pos (digits2_pos m)) in *.
  assert (Hd : 0 < d) by (unfold d; lia).
  unfold SFdiv, SFdiv_core_binary, fexp, emin.
  cbn [Zdigits2]. fold d. to_binint.
  change (Z.pos (digits2_pos 4503599627370496)) with 53.
  unfold prec, emax. change (3 - 1024 - 53) with (-1074).
  rewrite xorb_false_r.
  destruct (Z.eq_dec e (-1074)) as [->|Hne].
  - replace (Z.min (Z.max (d + -1074 - (53 + -52) - 53) (-1074)) (-1074 - -52))
      with (-1074) by lia.
    change (-1074 - -52 - -1074) with 52.
    cbv iota. rewrite Z.shiftl_mul_pow2 by lia.
    change (2 ^ 52) with 4503599627370496.
    rewrite (div_eucl_mul (Z.pos m) 4503599627370496 eq_refl).
    change (new_location 4503599627370496 0) with loc_Exact.
    cbv iota beta. apply (binary_round_aux_exact s m (-1074) Hb).
  - assert (Hd53 : d = 53) by lia.
    replace (Z.min (Z.max (d + e - (53 + -52) - 53) (-1074)) (e - -52))
      with (e - 1) by lia.
    replace (e - -52 - (e - 1)) with 53 by lia.
    cbv iota. rewrite Z.shiftl_mul_pow2 by lia.
    replace (Z.pos m * 2 ^ 53) with (Z.pos m~0 * 4503599627370496) by lia.
    rewrite (div_eucl_mul (Z.pos m~0) 4503599627370496 eq_refl).
    change (new_location 4503599627370496 0) with loc_Exact.
    cbv iota beta.
    unfold binary_round_aux, shr_fexp, fexp, emin, prec, emax.
    cbn [Zdigits2 shr_record_of_loc digits2_pos]. to_binint.
    rewrite Pos2Z.inj_succ. fold d.
    change (3 - 1024 - 53) with (-1074).
    replace (Z.max (Z.succ d + (e - 1) - 53) (-1074) - (e - 1)) with 1 by lia.
    cbn [shr iter_pos shr_1 orb shr_m loc_of_shr_record round_nearest_even
         Zdigits2 shr_record_of_loc].
    fold d.
    replace (Z.max (d + (e - 1 + 1) - 53) (-1074) - (e - 1 + 1)) with 0 by lia.
    cbn [shr shr_m].
    replace (e - 1 + 1) with e by lia.
    change (1024 - 53) with 971.
    apply Z.leb_le in He. now rewrite He.
Qed.

Lemma div_one (x : float) : (x / 1)%float = x.
Proof.
  apply Prim2SF_inj. rewrite div_spec, Prim2SF_one.
  pose proof (Prim2SF_valid x) as Hv.
  unfold SF64div.
  destruct (Prim2SF x) as [s|s| |s m e];
    [cbn; now rewrite xorb_false_r | cbn; now rewrite xorb_false_r
     | reflexivity | apply SFdiv_one, Hv].
Qed.

Lemma sub_zero (x : float) : (x - 0)%float = x.
Proof.
  apply Prim2SF_inj. rewrite sub_spec, Prim2SF_zero.
  destruct (Prim2SF x) as [[]|[]| |s m e]; reflexivity.
Qed.

Lemma eqb_zero_inv (s : float) :
  (s =? 0)%float = true -> exists b, Prim2SF s = S754_zero b.
Proof.
  rewrite eqb_spec, Prim2SF_zero.
  destruct (Prim2SF s) as [b|[]| |[] m e]; cbn; try discriminate.
  intros _. now exists b.
Qed.

Lemma div_zero_not_finite (x s : float) :
  (s =? 0)%float = true -> is_finite (x / s)%float = false.
Proof.
  intros Hs. destruct (eqb_zero_inv s Hs) as [b Hb].
  unfold is_finite, is_nan, is_infinity.
  rewrite !eqb_spec, abs_spec, div_spec, Hb.
  change (Prim2SF infinity) with (S754_infinity false).
  destruct (Prim2SF x) as [[]|[]| |[] m e], b; reflexivity.
Qed.

Lemma finite_cases (v : float) :
  is_finite v = true ->
  (exists b, Prim2SF v = S754_zero b) \/ (exists s m e, Prim2SF v = S754_finite s m e).
Proof.
  unfold is_finite, is_nan, is_infinity. rewrite !eqb_spec, abs_spec.
  change (Prim2SF infinity) with (S754_infinity false).
  destruct (Prim2SF v) as [b|[]| |s m e]; cbn; try discriminate.
  - intros _. left. now exists b.
  - intros _. right. now exists s, m, e.
Qed.

Lemma sub_self (v : float) : is_finite v = true -> (v - v)%float = 0%float.
Proof.
  intros Hv. apply Prim2SF_inj. rewrite sub_spec, Prim2SF_zero.
  destruct (finite_cases v Hv) as [[b ->]|[s [m [e ->]]]].
  - destruct b; reflexivity.
  - unfold SF64sub, SFsub. to_binint. rewrite Z.sub_diag. reflexivity.
Qed.

End FloatFacts.

(** ** The Standardizer in binary64 *)

Section Float64Facts.

Import PrimFloat.

Variable np_sum : list float -> float.

Lemma guard_zero_cases (s : float) :
  ((s =? 0)%float = true /\ Float64.guard_zero s = 1%float) \/
  ((s =? 0)%float = false /\ Float64.guard_zero s = s).
Proof.
  unfold Float64.guard_zero. destruct (s =? 0)%float; [left | right]; now split.
Qed.

(** The divisor never compares equal to 0. *)
Lemma guard_zero_nonzero (s : float) : (Float64.guard_zero s =? 0)%float = false.
Proof.
  destruct (guard_zero_cases s) as [[_ ->]|[Hs ->]]; [reflexivity | exact Hs].
Qed.

(** A column whose computed deviation is 0 is centred and left
    unscaled. *)
Lemma standardize_column_guarded (c : list float) :
  (Float64.np_std np_sum c =? 0)%float = true ->
  Float64.standardize_column np_sum c
  = map (fun x => (x - Float64.np_mean np_sum c)%float) c.
Proof.
  intros Hs. unfold Float64.standardize_column, Float64.guard_zero.
  rewrite Hs. apply map_ext. intros x. apply div_one.
Qed.



(** The unguarded division of the response by a deviation that compares
    equal to 0 leaves no finite entry. *)
Lemma standardize_phenotype_not_finite (y : list float) :
  (Float64.np_std np_sum y =? 0)%float = true ->
  Forall (fun e => is_finite e = false) (Float64.standardize_phenotype np_sum y).
Proof.
  intros Hs. unfold Float64.standardize_phenotype.
  apply Forall_forall. intros e He. apply in_map_iff in He.
  destruct He as [v [<- _]]. apply div_zero_not_finite, Hs.
Qed.

(** The standard deviation of the centred response, when the computed
    mean of the centred response is 0. *)
Lemma np_std_centred (y : list float) :
  let y1 := map (fun v => (v - Float64.np_mean np_sum y)%float) y in
  Float64.np_mean np_sum y1 = 0%float ->
  Float64.np_std np_sum y1 = Float64.np_std np_sum y.
Proof.
  intros y1 Hm. unfold Float64.np_std at 1. rewrite Hm. unfold y1.
  rewrite map_map. unfold Float64.np_std. do 2 f_equal.
  apply map_ext. intros x. now rewrite sub_zero.
Qed.

End Float64Facts.

Section StandardizerFloat64.

Import PrimFloat.
Local Open Scope float_scope.

(** C4, as amended.  In binary64 the Standardizer replaces by 1.0 the
    computed standard deviation of a column exactly when it compares
    equal to 0, so that no column is ever divided by zero.  Such a column
    comes out centred on its computed mean and unscaled; it is the
    all-zeros column when moreover its entries are one finite value and
    the computed mean is that value.  Every other column is divided by
    its computed standard deviation. *)
Theorem standardizer_guard_float64
    (np_sum : list float -> float) (data : NpReal.ndarray2 float)
    (j : nat) (c : list float) :
  nth_error (NpReal.columns data) j = Some c ->
  let mean := Float64.np_mean np_sum c in
  let std := Float64.np_std np_sum c in
  let out :=
    nth_error (NpReal.columns (Float64.standardize_columns np_sum data)) j in
  exists d : float,
    out = Some (map (fun x => (x - mean) / d) c) /\
    (d =? 0) = false /\
    ((std =? 0) = false -> d = std) /\
    ((std =? 0) = true ->
     d = 1 /\
     out = Some (map (fun x => x - mean) c) /\
     forall v : float,
       (forall x, In x c -> x = v) -> is_finite v = true -> mean = v ->
       out = Some (map (fun _ => 0) c)).
Proof.
  intros Hj mean std out.
  assert (Hout : out = Some (Float64.standardize_column np_sum c)).
  { unfold out. cbn. apply map_nth_error, Hj. }
  exists (Float64.guard_zero std). split; [exact Hout|].
  split; [apply guard_zero_nonzero|]. split.
  - intros Hs. unfold Float64.guard_zero. now rewrite Hs.
  - intros Hs. split; [unfold Float64.guard_zero; now rewrite Hs|].
    rewrite Hout, (standardize_column_guarded np_sum c Hs). split; [reflexivity|].
    intros v Hc Hv Hm. f_equal. apply map_ext_in. intros x Hx.
    fold mean. rewrite Hm, (Hc x Hx). apply sub_self, Hv.
Qed.

Lemma standardizer_guard_float64_witness :
  nth_error
    (NpReal.columns
       (Float64.standardize_columns Float64.sum_in_order
          (NpReal.mk_ndarray2 2 [[5; 5]; [1; 3]]))) 0
  = Some [0; 0].
Proof.
  destruct (standardizer_guard_float64 Float64.sum_in_order
              (NpReal.mk_ndarray2 2 [[5; 5]; [1; 3]]) 0 [5; 5] eq_refl)
    as [d [_ [_ [_ H]]]].
  refine (proj2 (proj2 (H eq_refl)) 5 _ eq_refl eq_refl).
  intros x [<-|[<-|[]]]; reflexivity.
Defined.

(** C4, as stated, fails in binary64.  The column (0.1, 0.1, 0.1) has the
    computed mean 0.10000000000000002 and the computed standard deviation
    2^-56, which is not 0: the guard does not fire and the column comes
    out as (-1, -1, -1), not as zeros.  On the column (1e308, 1e308) the
    sum overflows and the column comes out as (nan, nan). *)
Lemma constant_column_not_zeroed :
  let tenth := 0x1.999999999999ap-4 in
  let huge := 0x1.1ccf385ebc8ap+1023 in
  Float64.np_std Float64.sum_in_order [tenth; tenth; tenth] = 0x1p-56 /\
  Float64.standardize_columns Float64.sum_in_order
    (NpReal.mk_ndarray2 3 [[tenth; tenth; tenth]])
  = NpReal.mk_ndarray2 3 [[-1; -1; -1]] /\
  Float64.standardize_columns Float64.sum_in_order
    (NpReal.mk_ndarray2 2 [[huge; huge]])
  = NpReal.mk_ndarray2 2 [[nan; nan]].
Proof. vm_compute. split; [|split]; reflexivity. Qed.




End StandardizerFloat64.

(** ** Background matrix and response vector *)

Section PreparationFacts.

Import NpReal Standardizer Run Spec.
Local Open Scope R_scope.












End PreparationFacts.




Section ResponseFloat64.

Import PrimFloat.
Local Open Scope float_scope.




End ResponseFloat64.

(** * Further properties of the code *)

(** ** Allele Coder, for every input *)

Section AlleleCoderMore.

Import NpInt AlleleCoder Spec Measures.
Local Open Scope Z_scope.

Lemma flipped_heterozygotes (geno : list Z) :
  occurrences 1 (flipped geno) = occurrences 1 geno.
Proof.
  rewrite flipped_map. unfold occurrences, flipped_code.
  induction geno as [|x geno IH]; cbn [map count_occ]; [reflexivity|].
  destruct (Z.eqb_spec x 0) as [->|H0].
  - cbn. lia.
  - destruct (Z.eqb_spec x 1) as [->|H1].
    + cbn. lia.
    + cbv iota. destruct (Z.eq_dec 0 1) as [?|_]; [lia|].
      destruct (Z.eq_dec x 1); lia.
Qed.

Lemma ensure_cases (geno : list Z) :
  (occurrences 2 geno > occurrences 0 geno /\
   ensure_minor_allele_coding geno = flipped geno) \/
  (occurrences 2 geno <= occurrences 0 geno /\
   ensure_minor_allele_coding geno = geno).
Proof.
  destruct (Z_gt_le_dec (occurrences 2 geno) (occurrences 0 geno)) as [H|H].
  - left. split; [exact H | apply flips_when_more_twos, H].
  - right. split; [exact H | apply keeps_when_not_more_twos, H].
Qed.

(** The counts of a vector in diploid coding. *)
Lemma diploid_counts (geno : list Z) :
  diploid geno ->
  dosage geno = occurrences 1 geno + 2 * occurrences 2 geno /\
  Z.of_nat (length geno)
  = occurrences 0 geno + occurrences 1 geno + occurrences 2 geno.
Proof.
  unfold diploid, occurrences.
  induction 1 as [|x geno Hx _ [IHd IHl]]; [split; reflexivity|].
  cbn [dosage length count_occ]. rewrite IHd, Nat2Z.inj_succ, IHl.
  destruct (Z.eq_dec x 0), (Z.eq_dec x 1), (Z.eq_dec x 2);
    rewrite ?Nat2Z.inj_succ; split; lia.
Qed.

Lemma flipped_diploid (geno : list Z) : diploid (flipped geno).
Proof.
  rewrite flipped_map. unfold diploid, flipped_code.
  apply Forall_forall. intros y Hy. apply in_map_iff in Hy.
  destruct Hy as [x [<- _]].
  destruct (x =? 0); [|destruct (x =? 1)]; lia.
Qed.

Lemma flipped_back (geno : list Z) :
  diploid geno -> map (fun x => 2 - x) (flipped geno) = geno.
Proof.
  intros Hd. rewrite flipped_map, map_map.
  rewrite <- (map_id geno) at 2. apply map_ext_in.
  intros x Hx. unfold diploid in Hd. rewrite Forall_forall in Hd.
  destruct (Hd x Hx) as [->|[->| ->]]; reflexivity.
Qed.

End AlleleCoderMore.

(** X1.  For every genotype vector, flipped or not, the output of the
    Allele Coder has no more 2s than 0s, and the Allele Coder returns
    that output unchanged: it is idempotent. *)
Theorem allele_coder_idempotent (geno : list Z) :
  let out := AlleleCoder.ensure_minor_allele_coding geno in
  (Spec.occurrences 2 out <= Spec.occurrences 0 out)%Z /\
  AlleleCoder.ensure_minor_allele_coding out = out.
Proof.
  intros out.
  assert (H : (Spec.occurrences 2 out <= Spec.occurrences 0 out)%Z).
  { subst out. destruct (ensure_cases geno) as [[Hm ->]|[Hk ->]]; [|exact Hk].
    destruct (flipped_occurrences geno). lia. }
  split; [exact H | apply keeps_when_not_more_twos, H].
Qed.

(** X2.  For every genotype vector the Allele Coder returns a vector of
    the same length with the same number of heterozygotes (entries equal
    to 1), whether it flips or not. *)
Theorem allele_coder_keeps_length_and_heterozygotes (geno : list Z) :
  let out := AlleleCoder.ensure_minor_allele_coding geno in
  length out = length geno /\
  Spec.occurrences 1 out = Spec.occurrences 1 geno.
Proof.
  intros out. subst out.
  destruct (ensure_cases geno) as [[_ ->]|[_ ->]]; [|split; reflexivity].
  split; [apply flipped_length | apply flipped_heterozygotes].
Qed.

(** X3.  On a vector in diploid coding (entries 0, 1, 2) the output of
    the Allele Coder is again in diploid coding, and the counted allele
    is the minor one: its copies, the sum of the codes, are at most one
    per sample, that is, its frequency is at most one half. *)
Theorem allele_coder_codes_minor_allele (geno : list Z) :
  Spec.diploid geno ->
  let out := AlleleCoder.ensure_minor_allele_coding geno in
  Spec.diploid out /\
  (0 <= Measures.dosage out <= Z.of_nat (length out))%Z.
Proof.
  intros Hd out.
  assert (Hout : Spec.diploid out).
  { subst out. destruct (ensure_cases geno) as [[_ ->]|[_ ->]];
      [apply flipped_diploid | exact Hd]. }
  split; [exact Hout|].
  destruct (diploid_counts out Hout) as [Hdos Hlen].
  assert (H20 : (Spec.occurrences 2 out <= Spec.occurrences 0 out)%Z).
  { subst out. destruct (ensure_cases geno) as [[Hm ->]|[Hk ->]]; [|exact Hk].
    destruct (flipped_occurrences geno). lia. }
  unfold Spec.occurrences in *. lia.
Qed.

Lemma allele_coder_codes_minor_allele_witness :
  let out := AlleleCoder.ensure_minor_allele_coding [2; 2; 1; 0; 2]%Z in
  Spec.diploid out /\
  (0 <= Measures.dosage out <= Z.of_nat (length out))%Z.
Proof.
  apply (allele_coder_codes_minor_allele [2; 2; 1; 0; 2]%Z).
  unfold Spec.diploid. repeat constructor; lia.
Defined.

(** X4.  On a vector in diploid coding a flip loses nothing: when the
    Allele Coder flips, replacing every entry [x] of its output by
    [2 - x] gives the input back. *)
Theorem allele_coder_flip_reversible (geno : list Z) :
  Spec.diploid geno ->
  (Spec.occurrences 2 geno > Spec.occurrences 0 geno)%Z ->
  map (fun x => 2 - x)%Z (AlleleCoder.ensure_minor_allele_coding geno) = geno.
Proof.
  intros Hd Hmore. rewrite (flips_when_more_twos _ Hmore).
  apply flipped_back, Hd.
Qed.

Lemma allele_coder_flip_reversible_witness :
  map (fun x => 2 - x)%Z
      (AlleleCoder.ensure_minor_allele_coding [2; 2; 1; 0; 2]%Z)
  = [2; 2; 1; 0; 2]%Z.
Proof.
  apply (allele_coder_flip_reversible [2; 2; 1; 0; 2]%Z).
  - unfold Spec.diploid. repeat constructor; lia.
  - vm_compute. reflexivity.
Defined.

(** ** Column Resolver, with and without an override *)

Section ColumnResolverMore.

Import PyStr Run Gxg Spec.

Lemma mem_iff (x : string) (names : list string) :
  mem x names = true <-> In x names.
Proof.
  unfold mem. rewrite existsb_exists. split.
  - intros [z [Hz He]]. apply String.eqb_eq in He. now subst.
  - intros H. exists x. split; [exact H | apply String.eqb_refl].
Qed.

Lemma phenotype_columns_In (columns : list string) (c : string) :
  In c (phenotype_columns columns) -> In c columns /\ names_phenotype c.
Proof.
  unfold phenotype_columns. rewrite filter_In.
  intros [H Ht]. split; [exact H | apply names_phenotype_test, Ht].
Qed.

Lemma determine_without_override (columns : list string) (c : string) :
  determine_phenotype_column None columns = Ok c -> In c columns.
Proof.
  unfold determine_phenotype_column. cbn [is_given].
  destruct (phenotype_columns columns) as [|first rest] eqn:Hp.
  - destruct columns as [|c0 [|c1 rest]]; cbn; try discriminate.
    intros H. injection H as <-. right. left. reflexivity.
  - intros H. injection H as <-.
    apply (phenotype_columns_In columns). rewrite Hp. now left.
Qed.

End ColumnResolverMore.

(** X5.  An explicit, non-empty [--phenotype-column] always decides: the
    resolver returns that name when it is a column of the table and ends
    the run with the column-not-found message naming it otherwise, also
    when another column contains "phenotype". *)
Theorem column_override_decides (name : string) (columns : list string) :
  name <> EmptyString ->
  (In name columns ->
   Gxg.resolve_phenotype_column (Some name) columns = Run.Ok name) /\
  (~ In name columns ->
   Gxg.resolve_phenotype_column (Some name) columns
   = Run.SysExit1 (Run.PhenotypeColumnNotFound name)).
Proof.
  intros Hne.
  assert (Hd : Gxg.determine_phenotype_column (Some name) columns = Run.Ok name).
  { unfold Gxg.determine_phenotype_column.
    destruct name; [contradiction | reflexivity]. }
  unfold Gxg.resolve_phenotype_column. rewrite Hd. split; intros H.
  - apply mem_iff in H. now rewrite H.
  - destruct (PyStr.mem name columns) eqn:Hm; [|reflexivity].
    apply mem_iff in Hm. contradiction.
Qed.

Lemma column_override_decides_witness :
  Gxg.resolve_phenotype_column (Some "value"%string)
    ["id"; "Phenotype(binary)"; "value"]%string
  = Run.Ok "value"%string /\
  Gxg.resolve_phenotype_column (Some "trait"%string)
    ["id"; "Phenotype(binary)"; "value"]%string
  = Run.SysExit1 (Run.PhenotypeColumnNotFound "trait"%string).
Proof.
  split.
  - apply (proj1 (column_override_decides "value"%string
                    ["id"; "Phenotype(binary)"; "value"]%string
                    ltac:(discriminate))).
    cbn. auto.
  - apply (proj2 (column_override_decides "trait"%string
                    ["id"; "Phenotype(binary)"; "value"]%string
                    ltac:(discriminate))).
    cbn. intros [H|[H|[H|[]]]]; discriminate H.
Defined.

(** X6.  Whatever the override, a column name the resolver returns is a
    column of the phenotype table.  Without an override the resolver
    never reports a column as not found, it succeeds on every table with
    at least two columns, and it fails only on a table of at most one
    column none of whose names contains "phenotype". *)
Theorem column_resolver_returns_a_column (columns : list string) :
  (forall (arg : option string) (c : string),
      Gxg.resolve_phenotype_column arg columns = Run.Ok c -> In c columns) /\
  (forall name : string,
      Gxg.resolve_phenotype_column None columns
      <> Run.SysExit1 (Run.PhenotypeColumnNotFound name)) /\
  (2 <= length columns ->
   exists c, Gxg.resolve_phenotype_column None columns = Run.Ok c) /\
  (forall msg,
      Gxg.resolve_phenotype_column None columns = Run.SysExit1 msg ->
      msg = Run.CannotDeterminePhenotypeColumn /\
      length columns <= 1 /\
      Forall (fun x => ~ Spec.names_phenotype x) columns).
Proof.
  assert (Hnone : Gxg.resolve_phenotype_column None columns
                  = Gxg.determine_phenotype_column None columns).
  { unfold Gxg.resolve_phenotype_column.
    destruct (Gxg.determine_phenotype_column None columns) as [c| |] eqn:Hd;
      try reflexivity.
    apply determine_without_override, mem_iff in Hd. now rewrite Hd. }
  assert (Hfail : forall r,
             Gxg.determine_phenotype_column None columns = r ->
             (exists c, r = Run.Ok c) \/
             (r = Run.SysExit1 Run.CannotDeterminePhenotypeColumn /\
              length columns <= 1 /\
              Gxg.phenotype_columns columns = [])).
  { intros r <-. unfold Gxg.determine_phenotype_column. cbn [Gxg.is_given].
    destruct (Gxg.phenotype_columns columns) as [|first rest]; [|eauto].
    destruct (Nat.ltb_spec 1 (length columns)); [eauto|].
    right. split; [reflexivity|]. split; [lia | reflexivity]. }
  split; [|split; [|split]].
  - intros arg c. unfold Gxg.resolve_phenotype_column.
    destruct (Gxg.determine_phenotype_column arg columns) as [c'| |];
      try discriminate.
    destruct (PyStr.mem c' columns) eqn:Hm; [|discriminate].
    intros H. injection H as <-. apply mem_iff, Hm.
  - intros name H. rewrite Hnone in H.
    destruct (Hfail _ H) as [[c Hc]|[Hc _]]; discriminate Hc.
  - intros Hlen. rewrite Hnone.
    destruct (Hfail _ eq_refl) as [Hc|[_ [Hl _]]]; [exact Hc | lia].
  - intros msg Hr. rewrite Hnone in Hr.
    destruct (Hfail _ Hr) as [[c Hc]|[Hc [Hl Hp]]]; [discriminate Hc|].
    injection Hc as ->. split; [reflexivity|]. split; [exact Hl|].
    apply Forall_forall. intros x Hx Hn.
    apply names_phenotype_test in Hn.
    assert (Hin : In x (Gxg.phenotype_columns columns)).
    { unfold Gxg.phenotype_columns. apply filter_In. now split. }
    rewrite Hp in Hin. contradiction.
Qed.

Lemma column_resolver_returns_a_column_witness :
  exists c,
    Gxg.resolve_phenotype_column None ["sample"; "height"; "weight"]%string
    = Run.Ok c.
Proof.
  apply (proj1 (proj2 (proj2 (column_resolver_returns_a_column
                                ["sample"; "height"; "weight"]%string)))).
  cbn. lia.
Defined.

(** ** Reading the PCs file *)

(** X7.  A PCs file of fewer than three lines is never handed to pandas:
    fetching the third line raises, which ends the run with the read
    error.  On a file of three lines or more the layout with a comment
    row is chosen exactly when the second line starts with "#", so the
    test on the number of lines fetched never decides anything. *)
Theorem pcs_file_read_plan (file : list string) :
  (PcsFile.choose_read_plan file = None <-> length file < 3) /\
  (3 <= length file ->
   PcsFile.choose_read_plan file
   = Some (if String.prefix "#" (nth 1 file EmptyString)
           then PcsFile.CommentSecondRow
           else PcsFile.HeaderFirstRow)).
Proof.
  unfold PcsFile.choose_read_plan, PcsFile.first_lines.
  destruct file as [|l0 [|l1 [|l2 rest]]]; cbn [length Nat.ltb Nat.leb];
    try (split; [split; [lia | reflexivity] | lia]).
  split.
  - split; [|cbn; lia]. cbn.
    destruct (String.prefix "#" l1); discriminate.
  - intros _. cbn. destruct (String.prefix "#" l1); reflexivity.
Qed.

Lemma pcs_file_read_plan_witness :
  PcsFile.choose_read_plan
    ["id,sample,PC1"; "#local ancestry"; "0,s0,0.5"; "1,s1,0.25"]%string
  = Some PcsFile.CommentSecondRow.
Proof.
  apply (proj2 (pcs_file_read_plan
                  ["id,sample,PC1"; "#local ancestry"; "0,s0,0.5"; "1,s1,0.25"]%string)).
  cbn. lia.
Defined.

(** ** Choosing the PC columns *)

Section PcTableFacts.

Import PcTable.

Lemma filter_all {A : Type} (p : A -> bool) (l : list A) :
  length l <= length (filter p l) -> filter p l = l.
Proof.
  induction l as [|x l IH]; cbn; [reflexivity|].
  pose proof (filter_length_le p l) as Hle.
  destruct (p x); cbn; intros H.
  - f_equal. apply IH. lia.
  - lia.
Qed.

Lemma flat_map_absent (cs : list (string * series)) (c : string * series)
      (names : list string) :
  ~ In (fst c) names ->
  flat_map (fun name => filter (fun x => String.eqb (fst x) name) (c :: cs)) names
  = flat_map (fun name => filter (fun x => String.eqb (fst x) name) cs) names.
Proof.
  induction names as [|n names IH]; cbn [flat_map]; [reflexivity|].
  intros Hn. rewrite IH by (intros H; apply Hn; now right).
  cbn [filter]. destruct (String.eqb_spec (fst c) n) as [He|_]; [|reflexivity].
  exfalso. apply Hn. now left.
Qed.

Lemma filter_label_absent (cs : list (string * series)) (n : string) :
  ~ In n (map fst cs) -> filter (fun x => String.eqb (fst x) n) cs = [].
Proof.
  induction cs as [|c cs IH]; cbn; [reflexivity|].
  intros H. destruct (String.eqb_spec (fst c) n) as [He|_].
  - exfalso. apply H. now left.
  - apply IH. intros Hin. apply H. now right.
Qed.

(** With distinct labels, selecting by the labels of the columns that
    satisfy [q] gives those columns, in table order. *)
Lemma getitem_filter (q : string * series -> bool) (cs : list (string * series)) :
  NoDup (map fst cs) ->
  flat_map (fun name => filter (fun x => String.eqb (fst x) name) cs)
           (map fst (filter q cs))
  = filter q cs.
Proof.
  induction cs as [|c cs IH]; [reflexivity|].
  cbn [map]. intros Hnd. inversion Hnd as [|n ns Hn Hnd']; subst.
  assert (Hsub : ~ In (fst c) (map fst (filter q cs))).
  { intros H. apply Hn. apply in_map_iff in H. destruct H as [x [Hx Hin]].
    apply filter_In in Hin. apply in_map_iff. exists x. tauto. }
  change (filter q (c :: cs)) with (if q c then c :: filter q cs else filter q cs).
  destruct (q c).
  - cbn [map flat_map]. rewrite (flat_map_absent _ _ _ Hsub), (IH Hnd').
    cbn [filter]. rewrite String.eqb_refl, (filter_label_absent _ _ Hn).
    reflexivity.
  - rewrite (flat_map_absent _ _ _ Hsub). apply IH, Hnd'.
Qed.

Lemma nonempty_match {A : Type} (l alt : list A) :
  l <> [] -> match l with [] => alt | _ :: _ => l end = l.
Proof. destruct l; [contradiction | reflexivity]. Qed.

Lemma labels_filter (p : string -> bool) (cs : list (string * series)) :
  filter p (map fst cs) = map fst (filter (fun c => p (fst c)) cs).
Proof.
  induction cs as [|c cs IH]; cbn; [reflexivity|].
  destruct (p (fst c)); cbn; now rewrite IH.
Qed.

Lemma choose_or_keep (q : string * series -> bool) (df : frame) :
  NoDup (labels df) ->
  cols (if Nat.ltb (length (map fst (filter q (cols df)))) (length (labels df))
        then getitem df (map fst (filter q (cols df)))
        else df)
  = filter q (cols df).
Proof.
  intros Hnd. unfold labels in *. rewrite !length_map.
  destruct (Nat.ltb_spec (length (filter q (cols df))) (length (cols df))) as [Hl|Hl].
  - cbn. apply getitem_filter, Hnd.
  - symmetry. apply filter_all, Hl.
Qed.

End PcTableFacts.

(** X8.  On a PCs table with distinct column labels: when some label
    starts with "PC", the matrix is made of exactly the columns whose
    label starts with "PC", in table order, whatever their number; when
    no label does, it is made of exactly the columns of numeric dtype, in
    table order.  The row count is kept. *)
Theorem pc_columns_selected (pcs_df : PcTable.frame) :
  NoDup (PcTable.labels pcs_df) ->
  PcTable.nrows (PcTable.select_pc_columns pcs_df) = PcTable.nrows pcs_df /\
  ((exists c, In c (PcTable.cols pcs_df) /\ String.prefix "PC" (fst c) = true) ->
   PcTable.cols (PcTable.select_pc_columns pcs_df)
   = filter (fun c => String.prefix "PC" (fst c)) (PcTable.cols pcs_df)) /\
  ((forall c, In c (PcTable.cols pcs_df) -> String.prefix "PC" (fst c) = false) ->
   PcTable.cols (PcTable.select_pc_columns pcs_df)
   = filter (fun c => PcTable.is_numeric (snd c)) (PcTable.cols pcs_df)).
Proof.
  intros Hnd. split; [|split].
  - unfold PcTable.select_pc_columns.
    destruct (Nat.ltb _ _); reflexivity.
  - intros [c [Hin Hpc]].
    unfold PcTable.select_pc_columns, PcTable.labels. cbv zeta.
    rewrite labels_filter, nonempty_match.
    + apply (choose_or_keep (fun c1 => String.prefix "PC" (fst c1)) pcs_df Hnd).
    + intros Hnil. apply map_eq_nil in Hnil.
      assert (H : In c []); [|contradiction].
      rewrite <- Hnil. apply filter_In. now split.
  - intros Hno.
    unfold PcTable.select_pc_columns, PcTable.labels. cbv zeta.
    rewrite labels_filter.
    replace (filter (fun c0 => String.prefix "PC" (fst c0)) (PcTable.cols pcs_df))
      with (@nil (string * PcTable.series)).
    + cbn [map]. cbv iota. unfold PcTable.select_numeric. cbn [PcTable.cols].
      apply (choose_or_keep (fun c1 => PcTable.is_numeric (snd c1)) pcs_df Hnd).
    + symmetry. induction (PcTable.cols pcs_df) as [|c cs IH]; [reflexivity|].
      cbn. rewrite (Hno c (or_introl eq_refl)).
      apply IH. intros x Hx. apply Hno. now right.
Qed.

Lemma pc_columns_selected_witness :
  let pcs_df :=
    PcTable.mk_frame 2
      [("sample", PcTable.Object ["s0"; "s1"]);
       ("PC1", PcTable.Numeric [1; 3]%R);
       ("PC2", PcTable.Numeric [2; 5]%R);
       ("notes", PcTable.Object ["a"; "b"])]%string in
  PcTable.cols (PcTable.select_pc_columns pcs_df)
  = [("PC1", PcTable.Numeric [1; 3]%R); ("PC2", PcTable.Numeric [2; 5]%R)]%string /\
  PcTable.to_numpy (PcTable.select_pc_columns pcs_df)
  = Some (NpReal.mk_ndarray2 2 [[1; 3]; [2; 5]]%R).
Proof.
  intros pcs_df.
  assert (Hnd : NoDup (PcTable.labels pcs_df)).
  { cbn. repeat constructor; cbn; intuition discriminate. }
  assert (Hc : PcTable.cols (PcTable.select_pc_columns pcs_df)
               = [("PC1", PcTable.Numeric [1; 3]%R);
                  ("PC2", PcTable.Numeric [2; 5]%R)]%string).
  { refine (eq_trans (proj1 (proj2 (pc_columns_selected pcs_df Hnd)) _) eq_refl).
    exists ("PC1"%string, PcTable.Numeric [1; 3]%R). split; [cbn; auto | reflexivity]. }
  split; [exact Hc|].
  unfold PcTable.to_numpy. rewrite Hc. reflexivity.
Defined.

(** ** Standardizer: shape, and the trace of the background matrix *)

Section StandardizerMore.

Import NpReal Standardizer Spec Measures.
Local Open Scope R_scope.







End StandardizerMore.

(** X9.  The Standardizer keeps the shape of the matrix, whatever its
    entries (nan and infinities included): the row count, the number of
    columns and the length of every column.  The standardized response
    has the length of the phenotype column. *)
Theorem standardizer_keeps_shape
    (np_sum : list PrimFloat.float -> PrimFloat.float)
    (data : NpReal.ndarray2 PrimFloat.float) :
  let out := Float64.standardize_columns np_sum data in
  NpReal.shape0 out = NpReal.shape0 data /\
  NpReal.shape1 out = NpReal.shape1 data /\
  (forall (j : nat) (c : list PrimFloat.float),
      nth_error (NpReal.columns data) j = Some c ->
      exists z : list PrimFloat.float,
        nth_error (NpReal.columns out) j = Some z /\ length z = length c) /\
  (forall y : list PrimFloat.float,
      length (Float64.standardize_phenotype np_sum y) = length y).
Proof.
  intros out. subst out. split; [reflexivity|]. split; [|split].
  - unfold NpReal.shape1. cbn. apply length_map.
  - intros j c Hj. exists (Float64.standardize_column np_sum c). split.
    + cbn. apply map_nth_error, Hj.
    + unfold Float64.standardize_column. apply length_map.
  - intros y. unfold Float64.standardize_phenotype. apply length_map.
Qed.



Section WorkingFloat64.

Import PrimFloat.
Local Open Scope float_scope.

(** X12.  The two-step standardization of the response in
    WorkingLMMscript.py (centre, then divide by the standard deviation of
    the centred vector) returns what the one-step standardization of
    gxg-structlmm-script.py returns whenever the computed mean of the
    centred vector is 0.  Otherwise the two can differ: on the phenotype
    (0.1, 0.1, 0.1) the two steps give (-inf, -inf, -inf) and the one
    step gives (-1, -1, -1). *)
Theorem working_phenotype_float64
    (np_sum : list float -> float) (y : list float) :
  (Float64.np_mean np_sum (map (fun v => v - Float64.np_mean np_sum y) y) = 0 ->
   Float64.centre_then_scale np_sum y = Float64.standardize_phenotype np_sum y) /\
  (let tenth := 0x1.999999999999ap-4 in
   Float64.centre_then_scale Float64.sum_in_order [tenth; tenth; tenth]
   = [neg_infinity; neg_infinity; neg_infinity] /\
   Float64.standardize_phenotype Float64.sum_in_order [tenth; tenth; tenth]
   = [-1; -1; -1]).
Proof.
  split.
  - intros Hm. unfold Float64.centre_then_scale, Float64.standardize_phenotype.
    rewrite (np_std_centred np_sum y Hm), map_map. reflexivity.
  - vm_compute. split; reflexivity.
Qed.

Lemma working_phenotype_float64_witness :
  Float64.centre_then_scale Float64.sum_in_order [1; 3]
  = Float64.standardize_phenotype Float64.sum_in_order [1; 3].
Proof.
  apply (proj1 (working_phenotype_float64 Float64.sum_in_order [1; 3])).
  reflexivity.
Defined.

End WorkingFloat64.

(** ** The run of [main], from the arrays to the engine *)

Section MainFacts.

Import NpReal AlleleCoder Run Gxg Spec.

Lemma ensure_length (geno : list Z) :
  length (ensure_minor_allele_coding geno) = length geno.
Proof.
  destruct (ensure_cases geno) as [[_ ->]|[_ ->]];
    [apply flipped_length | reflexivity].
Qed.

Lemma design_matrix_rows (n : nat) (cov_df : option (ndarray2 npfloat))
      (M1 : ndarray2 npfloat) :
  design_matrix n cov_df = Some M1 -> shape0 M1 = n.
Proof.
  destruct cov_df as [df|]; cbn.
  - unfold concatenate_axis1. cbn. destruct (Nat.eqb n (shape0 df)); [|discriminate].
    intros H. injection H as <-. reflexivity.
  - intros H. injection H as <-. reflexivity.
Qed.

Lemma design_matrix_raises (n : nat) (cov_df : ndarray2 npfloat) :
  shape0 cov_df <> n -> design_matrix n (Some cov_df) = None.
Proof.
  intros H. cbn. unfold concatenate_axis1. cbn.
  destruct (Nat.eqb_spec n (shape0 cov_df)); [congruence | reflexivity].
Qed.

Lemma standardize_phenotype_length (pheno : list R) :
  length (standardize_phenotype pheno) = length pheno.
Proof. apply length_map. Qed.

End MainFacts.

(** X13.  When [main] ends with the inconsistent-sizes message, it has
    not called the engine, and the four sizes it reports are sizes of its
    inputs: the length of the phenotype column (for y and for M alike),
    the row count of the PC matrix and the length of the genotype column.
    M is never the odd one out: the mismatch is with E or with g. *)
Theorem gxg_size_report_names_inputs
    (lmm : Run.StructLMM) (pheno : list R) (pcs : NpReal.ndarray2 R)
    (cov_df : option (NpReal.ndarray2 NpReal.npfloat))
    (snv_df : NpReal.ndarray2 Z) (a b c d : nat) :
  snd (Gxg.main_from_arrays lmm pheno pcs cov_df snv_df)
  = Run.SysExit1 (Run.InconsistentSizes a b c d) ->
  fst (Gxg.main_from_arrays lmm pheno pcs cov_df snv_df) = [] /\
  a = length pheno /\
  b = NpReal.shape0 pcs /\
  c = length pheno /\
  d = length (nth 1 (NpReal.columns snv_df) []) /\
  (b <> a \/ d <> a).
Proof.
  unfold Gxg.main_from_arrays.
  destruct (Gxg.design_matrix _ cov_df) as [M1|] eqn:HM; [|discriminate].
  apply design_matrix_rows in HM. rewrite standardize_phenotype_length in HM.
  destruct (Nat.ltb (NpReal.shape1 snv_df) 2); [discriminate|].
  unfold Gxg.check_and_run.
  destruct (Gxg.sizes_consistent _) eqn:Hc; cbn [negb].
  - destruct (Run.call_engine lmm _) as [calls [pv|]]; discriminate.
  - cbn. intros H. injection H as <- <- <- <-.
    rewrite standardize_phenotype_length, ensure_length, HM.
    repeat (split; [reflexivity|]).
    unfold Gxg.sizes_consistent in Hc. cbn in Hc.
    rewrite standardize_phenotype_length, ensure_length, HM in Hc.
    rewrite !andb_false_iff, !Nat.eqb_neq in Hc. lia.
Qed.

Lemma gxg_size_report_names_inputs_witness :
  fst (Gxg.main_from_arrays accepting_engine [1; 3]%R
         (NpReal.mk_ndarray2 3 [[1; 2; 4]]%R) None
         (NpReal.mk_ndarray2 2 [[7; 8]; [0; 1]]%Z)) = [] /\
  2 = length [1; 3]%R.
Proof.
  pose proof (gxg_size_report_names_inputs accepting_engine [1; 3]%R
                (NpReal.mk_ndarray2 3 [[1; 2; 4]]%R) None
                (NpReal.mk_ndarray2 2 [[7; 8]; [0; 1]]%Z) 2 3 2 2 eq_refl) as H.
  split; apply H.
Defined.

(** X14.  Two ways in which [main] ends before the size check, in this
    order and without a call on the engine.  A covariate table whose row
    count differs from the length of the phenotype column makes
    [np.concatenate] raise ValueError outside any [try]: the mismatch is
    not reported as inconsistent sizes.  Otherwise an SNV table with
    fewer than two columns ends the run with the too-few-columns
    message. *)
Theorem gxg_exits_before_size_check
    (lmm : Run.StructLMM) (pheno : list R) (pcs : NpReal.ndarray2 R)
    (snv_df : NpReal.ndarray2 Z) :
  (forall cov_df : NpReal.ndarray2 NpReal.npfloat,
      NpReal.shape0 cov_df <> length pheno ->
      Gxg.main_from_arrays lmm pheno pcs (Some cov_df) snv_df
      = ([], Run.Uncaught Run.ValueError)) /\
  (forall cov_df : option (NpReal.ndarray2 NpReal.npfloat),
      (forall df, cov_df = Some df -> NpReal.shape0 df = length pheno) ->
      NpReal.shape1 snv_df < 2 ->
      Gxg.main_from_arrays lmm pheno pcs cov_df snv_df
      = ([], Run.SysExit1 Run.SnvTooFewColumns)).
Proof.
  split.
  - intros cov_df Hrows. unfold Gxg.main_from_arrays.
    rewrite design_matrix_raises; [reflexivity|].
    now rewrite standardize_phenotype_length.
  - intros cov_df Hrows Hsnv. unfold Gxg.main_from_arrays.
    destruct (Gxg.design_matrix _ cov_df) as [M1|] eqn:HM.
    + destruct (Nat.ltb_spec (NpReal.shape1 snv_df) 2); [reflexivity | lia].
    + exfalso. destruct cov_df as [df|]; [|discriminate].
      cbn in HM. unfold NpReal.concatenate_axis1 in HM. cbn in HM.
      rewrite standardize_phenotype_length, (Hrows df eq_refl), Nat.eqb_refl in HM.
      discriminate.
Qed.

Lemma gxg_exits_before_size_check_witness :
  Gxg.main_from_arrays accepting_engine [1; 3]%R
    (NpReal.mk_ndarray2 2 [[1; 3]]%R)
    (Some (NpReal.mk_ndarray2 3 [[NpReal.Finite 0; NpReal.Finite 1; NpReal.Finite 2]]))
    (NpReal.mk_ndarray2 2 [[7; 8]; [0; 1]]%Z)
  = ([], Run.Uncaught Run.ValueError) /\
  Gxg.main_from_arrays accepting_engine [1; 3]%R
    (NpReal.mk_ndarray2 2 [[1; 3]]%R) None
    (NpReal.mk_ndarray2 2 [[0; 1]]%Z)
  = ([], Run.SysExit1 Run.SnvTooFewColumns).
Proof.
  split.
  - apply (proj1 (gxg_exits_before_size_check accepting_engine [1; 3]%R
                    (NpReal.mk_ndarray2 2 [[1; 3]]%R)
                    (NpReal.mk_ndarray2 2 [[7; 8]; [0; 1]]%Z))).
    cbn. lia.
  - apply (proj2 (gxg_exits_before_size_check accepting_engine [1; 3]%R
                    (NpReal.mk_ndarray2 2 [[1; 3]]%R)
                    (NpReal.mk_ndarray2 2 [[0; 1]]%Z))).
    + intros df H. discriminate H.
    + cbn. lia.
Defined.

(** X15.  When the engine raises, in its constructor, in [fit] or in
    [score_2dof_inter], the same calls have been made in both scripts,
    but [main] of gxg-structlmm-script.py, having passed the size check,
    ends with the engine-error message and exit code 1, while the module
    body of Method2.py (and of WorkingLMMscript.py) lets the exception
    escape. *)
Theorem engine_failure_handling (lmm : Run.StructLMM) (st : Run.run_state) :
  snd (Run.call_engine lmm st) = None ->
  (Spec.all_sizes_equal st ->
   Gxg.check_and_run lmm st
   = (fst (Run.call_engine lmm st), Run.SysExit1 Run.StructLMMError)) /\
  Method2.run lmm st
  = (fst (Run.call_engine lmm st), Run.Uncaught Run.EngineException).
Proof.
  intros Hfail. split.
  - intros He. apply sizes_consistent_iff in He.
    unfold Gxg.check_and_run. rewrite He. cbn [negb].
    destruct (Run.call_engine lmm st) as [calls [pv|]]; [discriminate | reflexivity].
  - unfold Method2.run.
    destruct (Run.call_engine lmm st) as [calls [pv|]]; [discriminate | reflexivity].
Qed.

Lemma engine_failure_handling_witness :
  let lmm := Run.mk_StructLMM (fun _ _ _ => true) (fun _ _ _ => false)
                              (fun _ _ _ _ => None) in
  let st := Run.mk_run_state [NpReal.Finite 0] (NpReal.mk_ndarray2 1 [])
                             (NpReal.mk_ndarray2 1 [[NpReal.Finite 1]]) [0%Z] in
  Gxg.check_and_run lmm st
  = ([Run.Construct (Run.y st) (Run.M st) (Run.E st); Run.Fit],
     Run.SysExit1 Run.StructLMMError) /\
  Method2.run lmm st
  = ([Run.Construct (Run.y st) (Run.M st) (Run.E st); Run.Fit],
     Run.Uncaught Run.EngineException).
Proof.
  intros lmm st.
  pose proof (engine_failure_handling lmm st eq_refl) as [Hg Hm].
  split; [apply Hg; repeat split | exact Hm].
Defined.



(** ** The two earlier scripts *)

(** X17.  Assembling the arrays in Method2.py and in WorkingLMMscript.py
    can only fail on an SNV table with fewer than two columns
    (IndexError); building M never raises, because its ones column takes
    its length from E.  Otherwise Method2.py hands y, E and g to the
    engine as read; WorkingLMMscript.py hands over a response of the
    length of the phenotype column, and the background matrix and the
    recoded genotype vector that [main] of gxg-structlmm-script.py
    prepares from the same tables; in both M is the ones column followed
    by the columns of E. *)
Theorem scripts_assemble
    (HAPS : NpReal.ndarray2 R) (PHE_SUBSET : list R) (SNV : NpReal.ndarray2 Z) :
  let ones := repeat (NpReal.Finite 1) (NpReal.shape0 HAPS) in
  let with_ones (E : NpReal.ndarray2 NpReal.npfloat) :=
    NpReal.mk_ndarray2 (NpReal.shape0 HAPS) (ones :: NpReal.columns E) in
  (nth_error (NpReal.columns SNV) 1 = None ->
   Method2.assemble HAPS PHE_SUBSET SNV = Run.Uncaught Run.IndexError /\
   WorkingBody.assemble HAPS PHE_SUBSET SNV = Run.Uncaught Run.IndexError) /\
  (forall geno : list Z,
      nth_error (NpReal.columns SNV) 1 = Some geno ->
      Method2.assemble HAPS PHE_SUBSET SNV
      = Run.Ok (Run.mk_run_state
                  (map NpReal.Finite PHE_SUBSET)
                  (NpReal.of_reals (NpReal.iloc_from_1 HAPS))
                  (with_ones (NpReal.of_reals (NpReal.iloc_from_1 HAPS)))
                  geno) /\
      exists y : list NpReal.npfloat,
        length y = length PHE_SUBSET /\
        WorkingBody.assemble HAPS PHE_SUBSET SNV
        = Run.Ok (Run.mk_run_state
                    y
                    (Gxg.background_matrix (NpReal.iloc_from_1 HAPS))
                    (with_ones (Gxg.background_matrix (NpReal.iloc_from_1 HAPS)))
                    (AlleleCoder.ensure_minor_allele_coding geno))).
Proof.
  intros ones with_ones.
  assert (HM2 : forall E : NpReal.ndarray2 NpReal.npfloat,
             NpReal.shape0 E = NpReal.shape0 HAPS ->
             NpReal.concatenate_axis1 (NpReal.ones_column (NpReal.shape0 E)) E
             = Some (with_ones E)).
  { intros E HE. unfold NpReal.concatenate_axis1. cbn.
    rewrite Nat.eqb_refl, HE. reflexivity. }
  split.
  - intros Hnone. unfold Method2.assemble, WorkingBody.assemble,
      WorkingLMM.fixed_effects.
    rewrite !HM2 by reflexivity. rewrite Hnone. split; reflexivity.
  - intros geno Hg. split.
    + unfold Method2.assemble. rewrite !HM2 by reflexivity.
      rewrite Hg. reflexivity.
    + exists (WorkingBody.standardize_phenotype PHE_SUBSET). split.
      * unfold WorkingBody.standardize_phenotype. now rewrite !length_map.
      * unfold WorkingBody.assemble, WorkingLMM.fixed_effects.
        rewrite !HM2 by reflexivity. rewrite Hg. reflexivity.
Qed.

Lemma scripts_assemble_witness :
  Method2.assemble (NpReal.mk_ndarray2 2 [[0; 0]; [1; 3]]%R) [1; 0]%R
                   (NpReal.mk_ndarray2 2 [[0; 1]]%Z)
  = Run.Uncaught Run.IndexError.
Proof.
  apply (proj1 (scripts_assemble (NpReal.mk_ndarray2 2 [[0; 0]; [1; 3]]%R)
                  [1; 0]%R (NpReal.mk_ndarray2 2 [[0; 1]]%Z))).
  reflexivity.
Defined.

(** ** The response vector of a phenotype without spread *)

Section ResponseWithoutSpread.

Import PrimFloat.
Local Open Scope float_scope.

(** X19.  When the computed standard deviation of the phenotype column
    compares equal to 0, the inline standardization of [main] divides
    every entry by that zero and raises nothing: no entry of the response
    is finite, each is nan or an infinity. *)
Theorem phenotype_zero_deviation_float64
    (np_sum : list float -> float) (pheno : list float) :
  (Float64.np_std np_sum pheno =? 0) = true ->
  Forall (fun e => is_finite e = false)
         (Float64.standardize_phenotype np_sum pheno).
Proof. apply standardize_phenotype_not_finite. Qed.

Lemma phenotype_zero_deviation_float64_witness :
  Forall (fun e => is_finite e = false)
         (Float64.standardize_phenotype Float64.sum_in_order [5; 5]).
Proof.
  apply (phenotype_zero_deviation_float64 Float64.sum_in_order [5; 5]).
  reflexivity.
Defined.

End ResponseWithoutSpread.
